(** * Financial dashboard: metrics and alerting queries

    A shallow embedding of the SQL queries and the pandas post-processing of
    [02_data_prep/etl_pipeline.py] (class [FinancialDataETL]) and
    [05_reports/automated_reports.py] (class [FinancialReportGenerator]).

    Tables are lists of records, a query is a function from the tables (and
    the current date) to a list of result rows.  Modelling choices:

    - [numeric] values are exact rationals ([Q]); equalities between amounts
      are stated with [==].  A nullable SQL expression is an [option].
    - the columns [amount], [budget_amount], [target_amount] and
      [current_amount] are taken to be [NOT NULL]; [merchant] and
      [parent_category_id] are nullable, as the queries themselves test.
    - dates have day granularity; [CURRENT_DATE] is a parameter [today].
    - a pandas [float64] is a rational or one of [inf], [-inf], [NaN]; the
      rounding error of finite binary arithmetic is not modelled.
    - SQL leaves the order of rows that tie under [ORDER BY] open; the model
      sorts stably, starting from the order of the tables.
    - [STDDEV] is kept as its square, the sample variance.
    - the connection, the charts, the PDF and the files are left out, and
      so are the queries that only feed them ([extract_transactions],
      [get_top_expenses], [get_spending_trends]). *)

From Stdlib Require Import QArith Qround Qabs Lqa ZArith List String Bool Lia.
From Stdlib Require Import Permutation Sorted.
Import ListNotations.

Local Open Scope Q_scope.

(** ** Numbers *)

Module Numeric.

Definition Qlt_bool (x y : Q) : bool := negb (Qle_bool y x).

Definition Qsum (l : list Q) : Q := fold_right Qplus 0 l.

Definition pow10 (d : nat) : Q := inject_Z (10 ^ Z.of_nat d).

(** PostgreSQL [ROUND(x::numeric, d)]: ties go away from zero. *)
Definition round_half_away (d : nat) (x : Q) : Q :=
  let s := x * pow10 d in
  let n := if Qle_bool 0 s then Qfloor (s + (1 # 2))
           else (- Qfloor (- s + (1 # 2)))%Z in
  inject_Z n / pow10 d.

(** numpy / pandas [round(d)]: ties go to the even neighbour. *)
Definition round_half_even (d : nat) (x : Q) : Q :=
  let s := x * pow10 d in
  let f := Qfloor s in
  let r := s - inject_Z f in
  let n := if Qlt_bool r (1 # 2) then f
           else if Qlt_bool (1 # 2) r then (f + 1)%Z
           else if Z.even f then f else (f + 1)%Z in
  inject_Z n / pow10 d.

(** Equality of nullable numerics, up to [==]. *)
Definition oQeq (a b : option Q) : Prop :=
  match a, b with
  | Some x, Some y => x == y
  | None, None => True
  | _, _ => False
  end.

End Numeric.
Import Numeric.

(** ** pandas floats *)

Module Float64.

Inductive float : Type :=
| Fin (q : Q)
| PInf
| NInf
| NaN.

Definition fneg (x : float) : float :=
  match x with
  | Fin q => Fin (- q)
  | PInf => NInf
  | NInf => PInf
  | NaN => NaN
  end.

(** The infinity with the sign of [q], for [q] not zero. *)
Definition inf_of_sign (q : Q) : float :=
  if Qlt_bool 0 q then PInf else NInf.

(** IEEE division as numpy does it with warnings silenced: nothing is
    raised, [x / 0] is an infinity and [0 / 0] is [NaN].  A zero is taken
    to be [+0.0]. *)
Definition fdiv (x y : float) : float :=
  match x, y with
  | NaN, _ | _, NaN => NaN
  | Fin a, Fin b =>
      if Qeq_bool b 0
      then (if Qeq_bool a 0 then NaN else inf_of_sign a)
      else Fin (a / b)
  | Fin _, (PInf | NInf) => Fin 0
  | PInf, Fin b => if Qle_bool 0 b then PInf else NInf
  | NInf, Fin b => if Qle_bool 0 b then NInf else PInf
  | (PInf | NInf), (PInf | NInf) => NaN
  end.

Definition fmul (x y : float) : float :=
  match x, y with
  | NaN, _ | _, NaN => NaN
  | Fin a, Fin b => Fin (a * b)
  | Fin a, PInf | PInf, Fin a =>
      if Qeq_bool a 0 then NaN else inf_of_sign a
  | Fin a, NInf | NInf, Fin a =>
      if Qeq_bool a 0 then NaN else fneg (inf_of_sign a)
  | PInf, PInf | NInf, NInf => PInf
  | PInf, NInf | NInf, PInf => NInf
  end.

(** [Series.round(d)]: the special values pass through. *)
Definition fround (d : nat) (x : float) : float :=
  match x with
  | Fin q => Fin (round_half_even d q)
  | _ => x
  end.

Definition is_finite (x : float) : bool :=
  match x with Fin _ => true | _ => false end.


End Float64.
Import Float64.

(** ** Dates *)

Module Date.

Record date : Type := mkDate { year : Z; month : Z; day : Z }.

(** Days since 1970-01-01 in the proleptic Gregorian calendar. *)
Definition to_days (d : date) : Z :=
  let y := if (month d <=? 2)%Z then (year d - 1)%Z else year d in
  let era := (y / 400)%Z in
  let yoe := (y - era * 400)%Z in
  let mp := ((month d + 9) mod 12)%Z in
  let doy := ((153 * mp + 2) / 5 + day d - 1)%Z in
  let doe := (yoe * 365 + yoe / 4 - yoe / 100 + doy)%Z in
  (era * 146097 + doe - 719468)%Z.

(** [a - b] on dates: a number of days. *)
Definition diff_days (a b : date) : Z := (to_days a - to_days b)%Z.

(** [DATE_TRUNC('month', d)]. *)
Definition date_trunc_month (d : date) : Z * Z := (year d, month d).

Definition month_eqb (a b : Z * Z) : bool :=
  (fst a =? fst b)%Z && (snd a =? snd b)%Z.

Definition month_leb (a b : Z * Z) : bool :=
  (fst a <? fst b)%Z || ((fst a =? fst b)%Z && (snd a <=? snd b)%Z).

Definition same_month (a b : date) : bool :=
  month_eqb (date_trunc_month a) (date_trunc_month b).

Definition date_leb (a b : date) : bool := (to_days a <=? to_days b)%Z.

Definition date_min (a b : date) : date := if date_leb a b then a else b.
Definition date_max (a b : date) : date := if date_leb a b then b else a.

(** [d >= first] on calendar dates: by year, then month, then day. *)
Definition date_geb (d first : date) : bool :=
  (year first <? year d)%Z
  || ((year d =? year first)%Z
      && ((month first <? month d)%Z
          || ((month d =? month first)%Z && (day first <=? day d)%Z))).

(** [EXTRACT(DOW FROM d)]: 0 is Sunday; 1970-01-01 was a Thursday. *)
Definition day_of_week (d : date) : Z := ((to_days d + 4) mod 7)%Z.

End Date.
Import Date.

(** ** Relational operators *)

Module Sql.

Section Operators.
Context {A B K : Type}.

(** [la JOIN lb ON on]. *)
Definition inner_join (on : A -> B -> bool) (la : list A) (lb : list B)
  : list (A * B) :=
  flat_map (fun a => map (pair a) (filter (on a) lb)) la.

(** [la LEFT JOIN lb ON on]: a row of [la] without a partner is kept
    once, with the columns of [lb] null. *)
Definition left_join (on : A -> B -> bool) (la : list A) (lb : list B)
  : list (A * option B) :=
  flat_map (fun a =>
              match filter (on a) lb with
              | [] => [(a, None)]
              | bs => map (fun b => (a, Some b)) bs
              end) la.

(** The distinct values of a list, in order of first occurrence. *)
Fixpoint distinct (eqb : K -> K -> bool) (l : list K) : list K :=
  match l with
  | [] => []
  | k :: l' =>
      k :: filter (fun k' => negb (eqb k' k)) (distinct eqb l')
  end.

(** [GROUP BY key]: one group for every distinct key, holding all the
    rows with that key. *)
Definition group_by (eqb : K -> K -> bool) (key : A -> K) (l : list A)
  : list (K * list A) :=
  map (fun k => (k, filter (fun a => eqb (key a) k) l))
      (distinct eqb (map key l)).

(** [ORDER BY]: stable insertion sort; [leb a b] says that [a] may come
    before [b]. *)
Fixpoint insert_by (leb : A -> A -> bool) (x : A) (l : list A) : list A :=
  match l with
  | [] => [x]
  | y :: l' => if leb x y then x :: l else y :: insert_by leb x l'
  end.

Definition order_by (leb : A -> A -> bool) (l : list A) : list A :=
  fold_right (insert_by leb) [] l.

End Operators.

(** [SUM]: null inputs are skipped, and the sum of no value is null. *)
Definition sql_sum (l : list (option Q)) : option Q :=
  fold_right (fun x acc =>
                match x, acc with
                | Some v, Some s => Some (v + s)
                | Some v, None => Some v
                | None, _ => acc
                end) None l.

(** [COUNT(expr)]: the number of non-null inputs. *)
Definition sql_count {A : Type} (l : list (option A)) : Z :=
  Z.of_nat
    (List.length
       (filter (fun x => match x with Some _ => true | None => false end) l)).

Definition coalesce (x : option Q) (d : Q) : Q :=
  match x with Some v => v | None => d end.

(** [NULLIF(x, 0)]. *)
Definition nullif0 (x : Q) : option Q :=
  if Qeq_bool x 0 then None else Some x.

(** Arithmetic on nullable numerics: null as soon as an operand is. *)
Definition lift2 (f : Q -> Q -> Q) (a b : option Q) : option Q :=
  match a, b with
  | Some x, Some y => Some (f x y)
  | _, _ => None
  end.

End Sql.
Import Sql.

(** ** Record model *)

Inductive cat_type : Type := Income | Expense.
Inductive txn_type : Type := Credit | Debit.

Definition cat_type_eqb (a b : cat_type) : bool :=
  match a, b with
  | Income, Income | Expense, Expense => true
  | _, _ => false
  end.

Definition txn_type_eqb (a b : txn_type) : bool :=
  match a, b with
  | Credit, Credit | Debit, Debit => true
  | _, _ => false
  end.

Record category : Type := mkCategory {
  category_id : Z;
  category_name : string;
  parent_category_id : option Z;
  category_type : cat_type;
  is_essential : bool
}.

Record transaction : Type := mkTransaction {
  transaction_id : Z;
  account_id : Z;
  t_category_id : Z;
  transaction_date : date;
  amount : Q;
  description : string;
  merchant : option string;
  transaction_type : txn_type;
  is_recurring : bool
}.

Record budget : Type := mkBudget {
  b_category_id : Z;
  budget_period : string;
  budget_amount : Q;
  start_date : date;
  b_is_active : bool
}.

Record financial_goal : Type := mkGoal {
  goal_name : string;
  goal_type : string;
  target_amount : Q;
  current_amount : Q;
  target_date : date;
  priority : Z;
  g_is_active : bool
}.

Record database : Type := mkDatabase {
  categories : list category;
  transactions : list transaction;
  budgets : list budget;
  financial_goals : list financial_goal
}.

Definition is_some {A : Type} (x : option A) : bool :=
  match x with Some _ => true | None => false end.

Definition is_empty {A : Type} (l : list A) : bool :=
  match l with [] => true | _ :: _ => false end.

(** The key [(category_id, category_name)] of the spending groups. *)
Definition cat_key_eqb (a b : Z * string) : bool :=
  (fst a =? fst b)%Z && String.eqb (snd a) (snd b).

(** [c LEFT JOIN transactions t ON c.category_id = t.category_id AND
    DATE_TRUNC('month', t.transaction_date) = DATE_TRUNC('month', CURRENT_DATE)
    AND t.transaction_type = 'debit'], the join condition of both
    [current_month_spending] subqueries. *)
Definition spending_on (today : date) (c : category) (t : transaction) : bool :=
  (category_id c =? t_category_id t)%Z
  && same_month (transaction_date t) today
  && txn_type_eqb (transaction_type t) Debit.

(** Text built by an f-string: literal pieces, interpolated strings, and
    numbers printed with a fixed number of decimals ([{x:.2f}]). *)
Inductive part : Type :=
| Lit (s : string)
| Str (s : string)
| Fixed (digits : nat) (x : Q).

Definition text : Type := list part.

(** An exception that leaves a Python function. *)
Inductive result (A : Type) : Type :=
| Ok (a : A)
| Raise (exn : string).
Arguments Ok {A} a.
Arguments Raise {A} exn.

(** ** [FinancialReportGenerator] (05_reports/automated_reports.py) *)

Module Reports.

Record summary : Type := mkSummary {
  income : option Q;
  expenses : option Q;
  savings : option Q;
  savings_rate : option Q
}.

(** The [current_month] subquery of [get_monthly_summary]: transactions
    joined with their category, restricted to the current month. *)
Definition current_month_rows (db : database) (today : date)
  : list (transaction * category) :=
  filter (fun tc => same_month (transaction_date (fst tc)) today)
         (inner_join (fun t c => (t_category_id t =? category_id c)%Z)
                     (transactions db) (categories db)).

Definition income_term (tc : transaction * category) : Q :=
  if cat_type_eqb (category_type (snd tc)) Income
  then amount (fst tc) else 0.

Definition expense_term (tc : transaction * category) : Q :=
  if cat_type_eqb (category_type (snd tc)) Expense
     && txn_type_eqb (transaction_type (fst tc)) Debit
  then amount (fst tc) else 0.

(** The query of [get_monthly_summary].  An aggregate without [GROUP BY]
    returns exactly one row, also over no input. *)
Definition monthly_summary_query (db : database) (today : date)
  : list summary :=
  let rows := current_month_rows db today in
  let income := sql_sum (map (fun tc => Some (income_term tc)) rows) in
  let expenses := sql_sum (map (fun tc => Some (expense_term tc)) rows) in
  [ {| income := income;
       expenses := expenses;
       savings := lift2 Qminus income expenses;
       savings_rate :=
         match income with
         | Some i =>
             if Qlt_bool 0 i
             then option_map (round_half_away 2)
                    (lift2 Qmult
                       (lift2 Qdiv (lift2 Qminus income expenses) income)
                       (Some 100))
             else Some 0
         | None => Some 0
         end |} ].

Definition get_monthly_summary (db : database) (today : date) : summary :=
  match monthly_summary_query db today with
  | r :: _ => r
  | [] => {| income := Some 0; expenses := Some 0;
             savings := Some 0; savings_rate := Some 0 |}
  end.

(** A row of [current_month_spending]. *)
Record spending : Type := mkSpending {
  cms_category_id : Z;
  cms_category_name : string;
  actual_spend : Q
}.

Definition current_month_spending (db : database) (today : date)
  : list spending :=
  let joined := left_join (spending_on today)
                          (categories db) (transactions db) in
  let kept := filter (fun ct => is_some (parent_category_id (fst ct)))
                     joined in
  map (fun g =>
         {| cms_category_id := fst (fst g);
            cms_category_name := snd (fst g);
            actual_spend :=
              coalesce (sql_sum (map (fun ct => option_map amount (snd ct))
                                     (snd g))) 0 |})
      (group_by cat_key_eqb
                (fun ct => (category_id (fst ct), category_name (fst ct)))
                kept).

Record budget_row : Type := mkBudgetRow {
  row_category_name : string;
  row_budget : Q;
  row_actual_spend : Q;
  variance : Q;
  pct_used : Q
}.

Definition budget_row_of (cb : spending * option budget) : budget_row :=
  let cms := fst cb in
  let amt := option_map budget_amount (snd cb) in
  {| row_category_name := cms_category_name cms;
     row_budget := coalesce amt 0;
     row_actual_spend := actual_spend cms;
     variance := coalesce amt 0 - actual_spend cms;
     pct_used :=
       match amt with
       | Some b =>
           if Qlt_bool 0 b
           then round_half_away 1 (actual_spend cms / b * 100)
           else 0
       | None => 0
       end |}.

(** [ORDER BY pct_used DESC]. *)
Definition by_pct_used_desc (r1 r2 : budget_row) : bool :=
  Qle_bool (pct_used r2) (pct_used r1).

Definition get_budget_performance (db : database) (today : date)
  : list budget_row :=
  let joined :=
    left_join (fun cms b => (cms_category_id cms =? b_category_id b)%Z
                            && b_is_active b)
              (current_month_spending db today) (budgets db) in
  let kept := filter (fun cb => is_some (option_map budget_amount (snd cb)))
                     joined in
  order_by by_pct_used_desc (map budget_row_of kept).

Record alert : Type := mkAlert {
  alert_type : string;
  severity : string;
  message : text
}.

Definition exceeded_alert (row : budget_row) : alert :=
  {| alert_type := "budget_exceeded";
     severity := "high";
     message := [Lit "🔴 "; Str (row_category_name row); Lit ": $";
                 Fixed 2 (row_actual_spend row); Lit " spent ($";
                 Fixed 2 (Qabs (variance row)); Lit " over budget)"] |}.

Definition warning_alert (row : budget_row) : alert :=
  {| alert_type := "budget_warning";
     severity := "medium";
     message := [Lit "🟡 "; Str (row_category_name row); Lit ": ";
                 Fixed 1 (pct_used row); Lit "% of budget used"] |}.

Definition is_over_budget (row : budget_row) : bool :=
  Qlt_bool 100 (pct_used row).

Definition is_near_budget (row : budget_row) : bool :=
  Qle_bool 90 (pct_used row) && Qle_bool (pct_used row) 100.

(** The body of [get_alerts], from the budget frame on: two passes over
    the frame, each appending to [alerts]. *)
Definition alerts_of (budget_df : list budget_row) : list alert :=
  let alerts := [] in
  let over_budget := filter is_over_budget budget_df in
  let alerts :=
    if negb (is_empty over_budget)
    then fold_left (fun acc row => acc ++ [exceeded_alert row])
                   over_budget alerts
    else alerts in
  let near_budget := filter is_near_budget budget_df in
  let alerts :=
    if negb (is_empty near_budget)
    then fold_left (fun acc row => acc ++ [warning_alert row])
                   near_budget alerts
    else alerts in
  alerts.

Definition get_alerts (db : database) (today : date) : list alert :=
  alerts_of (get_budget_performance db today).

Definition rec_savings : text :=
  [Lit "• Consider increasing your savings rate to at least 20%"].
Definition rec_review : text :=
  [Lit "• Review budget categories that exceeded limits"].
Definition rec_focus (name : string) : text :=
  [Lit "• Focus on reducing "; Str name; Lit " spending"].
Definition rec_great : text :=
  [Lit "• Great job! You're managing your budget well."].
Definition rec_keep : text :=
  [Lit "• Keep up the consistent saving habits."].

(** The recommendation block of [generate_monthly_report]; [rate] is
    [summary['savings_rate']]. *)
Definition recommendations (rate : Q) (budget_df : list budget_row)
                           (alerts : list alert) : list text :=
  let recommendations := [] in
  let recommendations :=
    if Qlt_bool rate 20
    then recommendations ++ [rec_savings] else recommendations in
  let recommendations :=
    if (0 <? Z.of_nat (List.length alerts))%Z
    then recommendations ++ [rec_review] else recommendations in
  let recommendations :=
    if negb (is_empty budget_df)
    then
      let over_budget_categories := filter is_over_budget budget_df in
      match over_budget_categories with
      | top_overspend :: _ =>
          recommendations ++ [rec_focus (row_category_name top_overspend)]
      | [] => recommendations
      end
    else recommendations in
  let recommendations :=
    if is_empty recommendations
    then (recommendations ++ [rec_great]) ++ [rec_keep]
    else recommendations in
  recommendations.

(** The recommendations of [generate_monthly_report]: the frames are
    fetched, the summary table is laid out, then the block above runs.  Of
    the layout only this is modelled: the cells of the summary table print
    income, expenses and savings with [:,.2f], which raises on a missing
    value, as does comparing a missing savings rate with 20. *)
Definition generate_monthly_report (db : database) (today : date)
  : result (list text) :=
  let summary := get_monthly_summary db today in
  let budget_df := get_budget_performance db today in
  let alerts := get_alerts db today in
  match income summary, expenses summary, savings summary,
        savings_rate summary with
  | Some _, Some _, Some _, Some rate =>
      Ok (recommendations rate budget_df alerts)
  | _, _, _, _ => Raise "TypeError"
  end.

(** *** [get_top_expenses] *)

Record expense_row : Type := mkExpenseRow {
  te_transaction_date : date;
  te_merchant : option string;
  te_category_name : string;
  te_amount : Q
}.

(** [ORDER BY amount DESC]. *)
Definition by_amount_desc (r1 r2 : expense_row) : bool :=
  Qle_bool (te_amount r2) (te_amount r1).

(** The debit transactions of the current month, joined with their
    category. *)
Definition month_debits (db : database) (today : date)
  : list (transaction * category) :=
  filter (fun tc => same_month (transaction_date (fst tc)) today
                    && txn_type_eqb (transaction_type (fst tc)) Debit)
         (inner_join (fun t c => (t_category_id t =? category_id c)%Z)
                     (transactions db) (categories db)).

Definition expense_row_of (tc : transaction * category) : expense_row :=
  {| te_transaction_date := transaction_date (fst tc);
     te_merchant := merchant (fst tc);
     te_category_name := category_name (snd tc);
     te_amount := amount (fst tc) |}.

(** [LIMIT {limit}]: the server refuses a negative limit, and
    [pd.read_sql] raises. *)
Definition get_top_expenses (db : database) (today : date) (limit : Z)
  : result (list expense_row) :=
  if (limit <? 0)%Z then Raise "DatabaseError"
  else Ok (firstn (Z.to_nat limit)
                  (order_by by_amount_desc
                            (map expense_row_of (month_debits db today)))).

(** *** [get_spending_trends] *)

(** The number of a month, counted from year 0. *)
Definition month_index (m : Z * Z) : Z := (fst m * 12 + snd m - 1)%Z.

(** [month - INTERVAL 'n months']. *)
Definition months_before (n : Z) (m : Z * Z) : Z * Z :=
  let i := (month_index m - n)%Z in ((i / 12)%Z, (i mod 12 + 1)%Z).

(** [DATE_TRUNC('month', CURRENT_DATE) - INTERVAL '6 months']. *)
Definition trend_start (today : date) : date :=
  let m := months_before 6 (date_trunc_month today) in
  mkDate (fst m) (snd m) 1.

Record trend_row : Type := mkTrendRow {
  tr_month : Z * Z;
  total_spent : Q
}.

Definition trend_rows (db : database) (today : date)
  : list (transaction * category) :=
  filter (fun tc => cat_type_eqb (category_type (snd tc)) Expense
                    && txn_type_eqb (transaction_type (fst tc)) Debit
                    && date_geb (transaction_date (fst tc)) (trend_start today))
         (inner_join (fun t c => (t_category_id t =? category_id c)%Z)
                     (transactions db) (categories db)).

(** [GROUP BY 1 ORDER BY 1]. *)
Definition get_spending_trends (db : database) (today : date)
  : list trend_row :=
  order_by (fun r1 r2 => month_leb (tr_month r1) (tr_month r2))
    (map (fun g => {| tr_month := fst g;
                      total_spent :=
                        Qsum (map (fun tc => amount (fst tc)) (snd g)) |})
         (group_by month_eqb
                   (fun tc => date_trunc_month (transaction_date (fst tc)))
                   (trend_rows db today))).

(** *** The summary table and the alert section of the report *)

(** The status cell of the row Net Savings. *)
Definition savings_status (savings : Q) : string :=
  if Qlt_bool 0 savings then "✅" else "⚠️".

(** The status cell of the row Savings Rate. *)
Definition savings_rate_status (rate : Q) : string :=
  if Qle_bool 20 rate then "🟢"
  else if Qle_bool 10 rate then "🟡" else "🔴".

(** [alerts[:5]]: the alerts that the report prints. *)
Definition shown_alerts (alerts : list alert) : list alert :=
  firstn 5 alerts.

(** [budget_df.head(10)]: the rows of the budget table. *)
Definition budget_table (budget_df : list budget_row) : list budget_row :=
  firstn 10 budget_df.

End Reports.

(** ** [FinancialDataETL] (02_data_prep/etl_pipeline.py) *)

Module ETL.

(** *** [extract_transactions] *)

Record account : Type := mkAccount {
  acc_account_id : Z;
  account_name : string;
  account_type : string;
  current_balance : Q
}.

Record transaction_view : Type := mkTransactionView {
  tv_transaction_id : Z;
  tv_transaction_date : date;
  tv_amount : Q;
  tv_description : string;
  tv_merchant : option string;
  tv_transaction_type : txn_type;
  tv_category_name : string;
  tv_category_type : cat_type;
  tv_is_essential : bool;
  tv_parent_category : option string;
  tv_account_name : string;
  tv_account_type : string;
  tv_year : Z;
  tv_month : Z;
  tv_day_of_week : Z;
  tv_day_name : string;
  tv_month_name : string
}.

(** [TO_CHAR(d, 'Day')] and [TO_CHAR(d, 'Month')]: the name, padded with
    blanks to nine characters. *)
Definition day_names : list string :=
  [ "Sunday   "; "Monday   "; "Tuesday  "; "Wednesday"; "Thursday ";
    "Friday   "; "Saturday " ]%string.

Definition month_names : list string :=
  [ "January  "; "February "; "March    "; "April    "; "May      ";
    "June     "; "July     "; "August   "; "September"; "October  ";
    "November "; "December " ]%string.

Definition transaction_view_of
           (r : transaction * category * option category * account)
  : transaction_view :=
  let t := fst (fst (fst r)) in
  let c := snd (fst (fst r)) in
  let a := snd r in
  {| tv_transaction_id := transaction_id t;
     tv_transaction_date := transaction_date t;
     tv_amount := amount t;
     tv_description := description t;
     tv_merchant := merchant t;
     tv_transaction_type := transaction_type t;
     tv_category_name := category_name c;
     tv_category_type := category_type c;
     tv_is_essential := is_essential c;
     tv_parent_category := option_map category_name (snd (fst r));
     tv_account_name := account_name a;
     tv_account_type := account_type a;
     tv_year := year (transaction_date t);
     tv_month := month (transaction_date t);
     tv_day_of_week := day_of_week (transaction_date t);
     tv_day_name :=
       nth (Z.to_nat (day_of_week (transaction_date t))) day_names EmptyString;
     tv_month_name :=
       nth (Z.to_nat (month (transaction_date t) - 1)) month_names EmptyString |}.

(** The [FROM ... JOIN ...] of the query. *)
Definition transaction_joins (db : database) (accounts : list account)
  : list (transaction * category * option category * account) :=
  inner_join (fun r a => (account_id (fst (fst r)) =? acc_account_id a)%Z)
    (left_join (fun tc p =>
                  match parent_category_id (snd tc) with
                  | Some pid => (pid =? category_id p)%Z
                  | None => false
                  end)
       (inner_join (fun t c => (t_category_id t =? category_id c)%Z)
                   (transactions db) (categories db))
       (categories db))
    accounts.

(** [if start_date:] and [if end_date:] add a bound each; without the
    argument there is none. *)
Definition in_range (start_date end_date : option date) (d : date) : bool :=
  match start_date with Some s => date_geb d s | None => true end
  && match end_date with Some e => date_geb e d | None => true end.

(** [ORDER BY t.transaction_date DESC]. *)
Definition by_date_desc (r1 r2 : transaction_view) : bool :=
  date_geb (tv_transaction_date r1) (tv_transaction_date r2).

Definition extract_transactions (db : database) (accounts : list account)
           (start_date end_date : option date) : list transaction_view :=
  order_by by_date_desc
    (map transaction_view_of
       (filter (fun r => in_range start_date end_date
                                  (transaction_date (fst (fst (fst r)))))
               (transaction_joins db accounts))).

(** *** [extract_budget_performance] *)

Record spending : Type := mkSpending {
  cms_category_id : Z;
  cms_category_name : string;
  actual_spend : Q;
  cms_num_transactions : Z
}.

Definition current_month_spending (db : database) (today : date)
  : list spending :=
  let joined := left_join (spending_on today)
                          (categories db) (transactions db) in
  let kept := filter (fun ct => is_some (parent_category_id (fst ct)))
                     joined in
  map (fun g =>
         {| cms_category_id := fst (fst g);
            cms_category_name := snd (fst g);
            actual_spend :=
              coalesce (sql_sum (map (fun ct => option_map amount (snd ct))
                                     (snd g))) 0;
            cms_num_transactions :=
              sql_count (map (fun ct => option_map transaction_id (snd ct))
                             (snd g)) |})
      (group_by cat_key_eqb
                (fun ct => (category_id (fst ct), category_name (fst ct)))
                kept).

Record budget_row : Type := mkBudgetRow {
  row_category_name : string;
  row_budget_amount : Q;
  row_actual_spend : Q;
  variance : Q;
  pct_used : option Q;
  num_transactions : Z
}.

Definition budget_row_of (bc : budget * spending) : budget_row :=
  let b := fst bc in
  let cms := snd bc in
  {| row_category_name := cms_category_name cms;
     row_budget_amount := budget_amount b;
     row_actual_spend := actual_spend cms;
     variance := budget_amount b - actual_spend cms;
     pct_used :=
       option_map (round_half_away 1)
         (lift2 Qmult
            (lift2 Qdiv (Some (actual_spend cms))
                        (nullif0 (budget_amount b)))
            (Some 100));
     num_transactions := cms_num_transactions cms |}.

(** [ORDER BY cms.actual_spend DESC]. *)
Definition by_actual_spend_desc (r1 r2 : budget_row) : bool :=
  Qle_bool (row_actual_spend r2) (row_actual_spend r1).

Definition extract_budget_performance (db : database) (today : date)
  : list budget_row :=
  let joined :=
    inner_join (fun b cms => (b_category_id b =? cms_category_id cms)%Z)
               (budgets db) (current_month_spending db today) in
  let kept := filter (fun bc => b_is_active (fst bc)
                                && String.eqb (budget_period (fst bc))
                                              "monthly")
                     joined in
  order_by by_actual_spend_desc (map budget_row_of kept).

(** *** [extract_monthly_summary] *)

Record type_total : Type := mkTypeTotal {
  tt_month : Z * Z;
  tt_category_type : cat_type;
  total_amount : Q;
  tt_transaction_count : Z;
  avg_amount : Q
}.

Definition month_type_eqb (a b : (Z * Z) * cat_type) : bool :=
  month_eqb (fst a) (fst b) && cat_type_eqb (snd a) (snd b).

Definition cat_type_leb (a b : cat_type) : bool :=
  match a, b with
  | Income, Expense => false
  | _, _ => true
  end.

(** [ORDER BY month DESC, category_type]. *)
Definition by_month_desc_type (r1 r2 : type_total) : bool :=
  negb (month_leb (tt_month r1) (tt_month r2))
  || (month_eqb (tt_month r1) (tt_month r2)
      && cat_type_leb (tt_category_type r1) (tt_category_type r2)).

Definition monthly_totals_query (db : database) : list type_total :=
  let joined := inner_join (fun t c => (t_category_id t =? category_id c)%Z)
                           (transactions db) (categories db) in
  order_by by_month_desc_type
    (map (fun g =>
            let amounts := map (fun tc => amount (fst tc)) (snd g) in
            {| tt_month := fst (fst g);
               tt_category_type := snd (fst g);
               total_amount := Qsum amounts;
               tt_transaction_count := Z.of_nat (List.length (snd g));
               avg_amount :=
                 Qsum amounts / inject_Z (Z.of_nat (List.length (snd g))) |})
         (group_by month_type_eqb
                   (fun tc => (date_trunc_month (transaction_date (fst tc)),
                               category_type (snd tc)))
                   joined)).

(** A row of the pivoted frame.  A column that the frame does not have is
    [None] in every row. *)
Record pivot_row : Type := mkPivotRow {
  pv_month : Z * Z;
  pv_income : option Q;
  pv_expense : option Q;
  pv_savings : option Q;
  pv_savings_rate : option float
}.

(** [pivot_table(index='month', columns='category_type',
    values='total_amount', aggfunc='sum', fill_value=0)]: a column for
    every category type that occurs in [df], the cell of a month without a
    row of that type is filled with 0. *)
Definition pivot_cell (df : list type_total) (ty : cat_type) (m : Z * Z)
  : option Q :=
  if existsb (fun r => cat_type_eqb (tt_category_type r) ty) df
  then Some (Qsum (map total_amount
                     (filter (fun r => month_eqb (tt_month r) m
                                       && cat_type_eqb (tt_category_type r) ty)
                             df)))
  else None.

Definition pivot_months (df : list type_total) : list (Z * Z) :=
  order_by month_leb (distinct month_eqb (map tt_month df)).

Definition add_savings (income expense : option Q)
  : option Q * option float :=
  match income, expense with
  | Some i, Some e =>
      let savings := i - e in
      (Some savings,
       Some (fround 2 (fmul (fdiv (Fin savings) (Fin i)) (Fin 100))))
  | _, _ => (None, None)
  end.

Definition extract_monthly_summary (db : database) : list pivot_row :=
  let df := monthly_totals_query db in
  map (fun m =>
         let income := pivot_cell df Income m in
         let expense := pivot_cell df Expense m in
         let sv := add_savings income expense in
         {| pv_month := m;
            pv_income := income;
            pv_expense := expense;
            pv_savings := fst sv;
            pv_savings_rate := snd sv |})
      (pivot_months df).

(** *** [extract_category_spending] *)

Record category_spend : Type := mkCategorySpend {
  cs_month : Z * Z;
  cs_category_name : string;
  cs_parent_category : option string;
  total_spend : Q;
  cs_transaction_count : Z;
  avg_transaction : Q
}.

Definition opt_string_eqb (a b : option string) : bool :=
  match a, b with
  | Some x, Some y => String.eqb x y
  | None, None => true
  | _, _ => false
  end.

Definition spend_key_eqb (a b : (Z * Z) * string * option string) : bool :=
  month_eqb (fst (fst a)) (fst (fst b))
  && String.eqb (snd (fst a)) (snd (fst b))
  && opt_string_eqb (snd a) (snd b).

(** [c.parent_category_id = parent_c.category_id]; never true on null. *)
Definition parent_on (tc : transaction * category) (p : category) : bool :=
  match parent_category_id (snd tc) with
  | Some pid => (pid =? category_id p)%Z
  | None => false
  end.

(** [FROM ... JOIN ... LEFT JOIN ... WHERE ...] of the query. *)
Definition category_spending_rows (db : database)
  : list (transaction * category * option category) :=
  filter (fun r => txn_type_eqb (transaction_type (fst (fst r))) Debit
                   && is_some (parent_category_id (snd (fst r))))
         (left_join parent_on
            (inner_join (fun t c => (t_category_id t =? category_id c)%Z)
                        (transactions db) (categories db))
            (categories db)).

Definition spend_key (r : transaction * category * option category)
  : (Z * Z) * string * option string :=
  (date_trunc_month (transaction_date (fst (fst r))),
   category_name (snd (fst r)),
   option_map category_name (snd r)).

(** [ORDER BY month DESC, total_spend DESC]. *)
Definition by_month_desc_spend_desc (r1 r2 : category_spend) : bool :=
  negb (month_leb (cs_month r1) (cs_month r2))
  || (month_eqb (cs_month r1) (cs_month r2)
      && Qle_bool (total_spend r2) (total_spend r1)).

Definition extract_category_spending (db : database)
  : list category_spend :=
  order_by by_month_desc_spend_desc
    (map (fun g =>
            let amounts := map (fun r => amount (fst (fst r))) (snd g) in
            {| cs_month := fst (fst (fst g));
               cs_category_name := snd (fst (fst g));
               cs_parent_category := snd (fst g);
               total_spend := Qsum amounts;
               cs_transaction_count := Z.of_nat (List.length (snd g));
               avg_transaction :=
                 Qsum amounts / inject_Z (Z.of_nat (List.length (snd g))) |})
         (group_by spend_key_eqb spend_key (category_spending_rows db))).

(** *** [extract_merchant_analysis] *)

Definition sql_min_date (l : list date) : option date :=
  match l with
  | [] => None
  | d :: l' => Some (fold_left date_min l' d)
  end.

Definition sql_max_date (l : list date) : option date :=
  match l with
  | [] => None
  | d :: l' => Some (fold_left date_max l' d)
  end.

(** The square of [STDDEV(amount)], the sample variance; null on fewer
    than two values. *)
Definition var_samp (l : list Q) : option Q :=
  let n := Z.of_nat (List.length l) in
  if (n <? 2)%Z then None
  else
    let mean := Qsum l / inject_Z n in
    Some (Qsum (map (fun x => (x - mean) * (x - mean)) l)
          / inject_Z (n - 1)).

Record merchant_row : Type := mkMerchantRow {
  mr_merchant : option string;
  transaction_count : Z;
  total_spent : Q;
  mr_avg_transaction : Q;
  first_transaction : option date;
  last_transaction : option date;
  amount_stddev_sq : option Q;
  days_active : option Z;
  avg_days_between : float
}.

(** [ORDER BY total_spent DESC]. *)
Definition by_total_spent_desc (r1 r2 : merchant_row) : bool :=
  Qle_bool (total_spent r2) (total_spent r1).

Definition merchant_rows (db : database) : list transaction :=
  filter (fun t => txn_type_eqb (transaction_type t) Debit
                   && is_some (merchant t))
         (transactions db).

(** The two derived columns: a missing date gives a missing difference,
    and NaN in float arithmetic. *)
Definition days_between (first last : option date) : option Z :=
  match first, last with
  | Some f, Some l => Some (diff_days l f)
  | _, _ => None
  end.

Definition per_interval (days : option Z) (count : Z) : float :=
  match days with
  | Some d => fdiv (Fin (inject_Z d)) (Fin (inject_Z (count - 1)))
  | None => NaN
  end.

Definition merchant_row_of (g : option string * list transaction)
  : merchant_row :=
  let amounts := map amount (snd g) in
  let dates := map transaction_date (snd g) in
  let count := Z.of_nat (List.length (snd g)) in
  let first := sql_min_date dates in
  let last := sql_max_date dates in
  {| mr_merchant := fst g;
     transaction_count := count;
     total_spent := Qsum amounts;
     mr_avg_transaction := Qsum amounts / inject_Z count;
     first_transaction := first;
     last_transaction := last;
     amount_stddev_sq := var_samp amounts;
     days_active := days_between first last;
     avg_days_between := per_interval (days_between first last) count |}.

Definition extract_merchant_analysis (db : database) : list merchant_row :=
  order_by by_total_spent_desc
    (map merchant_row_of
       (filter (fun g => (2 <=? Z.of_nat (List.length (snd g)))%Z)
               (group_by opt_string_eqb merchant (merchant_rows db)))).

(** *** [extract_financial_goals] *)

Record goal_row : Type := mkGoalRow {
  gr_goal_name : string;
  gr_goal_type : string;
  gr_target_amount : Q;
  gr_current_amount : Q;
  gr_target_date : date;
  gr_priority : Z;
  amount_remaining : Q;
  pct_complete : option Q;
  days_remaining : Z
}.

Definition goal_row_of (today : date) (g : financial_goal) : goal_row :=
  {| gr_goal_name := goal_name g;
     gr_goal_type := goal_type g;
     gr_target_amount := target_amount g;
     gr_current_amount := current_amount g;
     gr_target_date := target_date g;
     gr_priority := priority g;
     amount_remaining := target_amount g - current_amount g;
     pct_complete :=
       option_map (round_half_away 2)
         (lift2 Qmult
            (lift2 Qdiv (Some (current_amount g))
                        (nullif0 (target_amount g)))
            (Some 100));
     days_remaining := diff_days (target_date g) today |}.

(** [ORDER BY priority, pct_complete DESC]; in a descending order nulls
    come first. *)
Definition pct_desc (a b : option Q) : bool :=
  match a, b with
  | None, _ => true
  | Some _, None => false
  | Some x, Some y => Qle_bool y x
  end.

Definition by_priority_pct_desc (r1 r2 : goal_row) : bool :=
  (gr_priority r1 <? gr_priority r2)%Z
  || ((gr_priority r1 =? gr_priority r2)%Z
      && pct_desc (pct_complete r1) (pct_complete r2)).

Definition goals_query (db : database) (today : date) : list goal_row :=
  order_by by_priority_pct_desc
    (map (goal_row_of today) (filter g_is_active (financial_goals db))).

(** [np.where(cond, a, b)] on one element: both [a] and [b] have been
    computed, [cond] picks one. *)
Definition np_where (cond : bool) (a b : float) : float :=
  if cond then a else b.

Definition monthly_savings_needed_of (r : goal_row) : float :=
  fround 2
    (np_where (0 <? days_remaining r)%Z
       (fdiv (Fin (amount_remaining r))
             (fdiv (Fin (inject_Z (days_remaining r))) (Fin 30)))
       (Fin 0)).

(** The frame with the added column [monthly_savings_needed]. *)
Definition extract_financial_goals (db : database) (today : date)
  : list (goal_row * float) :=
  let df := goals_query db today in
  if (0 <? Z.of_nat (List.length df))%Z
  then map (fun r => (r, monthly_savings_needed_of r)) df
  else [].

(** *** [export_to_excel] *)

Section ExcelExport.

(** What is written to a sheet or a file. *)
Variable frame : Type.

(** The run of each step: the extraction, then writing the frame to the
    workbook (or to a CSV file in the fallback); an exception of either
    is the step's exception. *)
Variables xl_transactions xl_budget xl_monthly
          xl_category xl_merchant xl_goals : result frame.
Variables csv_transactions csv_budget csv_monthly : result frame.

(** Whether [pd.ExcelWriter] can be opened, and whether the workbook can
    be saved when the [with] block is left. *)
Variable open_writer : bool.
Variable save : list (string * frame) -> bool.

Record export_state : Type := mkExportState {
  sheets : list (string * frame);
  files : list (string * frame);
  printed : list text
}.

Definition print (msg : text) (st : export_state) : export_state :=
  {| sheets := sheets st; files := files st;
     printed := printed st ++ [msg] |}.

Definition sheet_warning (name exn : string) : text :=
  [Lit "⚠️ Warning: Could not export "; Lit name; Lit " sheet: "; Str exn].

Definition csv_warning (what exn : string) : text :=
  [Lit "⚠️ Could not export "; Lit what; Lit ": "; Str exn].

(** One [try: ... to_excel(...) except Exception as e: print(...)]. *)
Definition try_sheet (name : string) (step : result frame)
                     (st : export_state) : export_state :=
  match step with
  | Ok df => {| sheets := sheets st ++ [(name, df)]; files := files st;
                printed := printed st |}
  | Raise e => print (sheet_warning name e) st
  end.

(** One [try: ... to_csv(...); print(...) except ...] of the fallback. *)
Definition try_csv (file what : string) (step : result frame)
                   (st : export_state) : export_state :=
  match step with
  | Ok df => print [Lit "✓ Exported "; Lit file]
               {| sheets := sheets st;
                  files := files st ++ [(file, df)];
                  printed := printed st |}
  | Raise e => print (csv_warning what e) st
  end.

(** The body of the [with] block. *)
Definition write_sheets (st : export_state) : export_state :=
  let st := try_sheet "Transactions" xl_transactions st in
  let st := try_sheet "Budget Performance" xl_budget st in
  let st := try_sheet "Monthly Summary" xl_monthly st in
  let st := try_sheet "Category Spending" xl_category st in
  let st := try_sheet "Merchant Analysis" xl_merchant st in
  let st := try_sheet "Financial Goals" xl_goals st in
  st.

(** The outer [except]: no workbook, three CSV files instead. *)
Definition csv_fallback (st : export_state) : export_state :=
  let st := print [Lit "❌ Error creating Excel file"] st in
  let st := print [Lit "Falling back to CSV exports..."] st in
  let st := {| sheets := []; files := files st; printed := printed st |} in
  let st := try_csv "transactions.csv" "transactions" csv_transactions st in
  let st := try_csv "budget_performance.csv" "budget" csv_budget st in
  let st := try_csv "monthly_summary.csv" "monthly summary" csv_monthly st in
  st.

(** The final state: [sheets] is the saved workbook, [files] the CSV
    files, [printed] the console. *)
Definition export_to_excel : export_state :=
  let st := print [Lit "📊 Exporting data to Excel..."]
                  {| sheets := []; files := []; printed := [] |} in
  if open_writer then
    let st := write_sheets st in
    if save (sheets st)
    then print [Lit "✅ Data exported"] st
    else csv_fallback st
  else csv_fallback st.

End ExcelExport.

Arguments sheets {frame} _.
Arguments files {frame} _.
Arguments printed {frame} _.

End ETL.

(** * Vocabulary of the properties, and sample data *)

Section ReportVocabulary.
Import Reports.

(** A budget row with a given percentage of its budget of 600 used. *)
Definition row_at (pct : Q) : budget_row :=
  {| row_category_name := "Groceries"; row_budget := 600;
     row_actual_spend := 6 * pct; variance := 600 - 6 * pct;
     pct_used := pct |}.

(** The rules in the order the specification lists them. *)
Definition ordered_rules (rate : Q) (budget_df : list budget_row)
                         (alerts : list alert) : list text :=
  (if Qlt_bool rate 20 then [rec_savings] else [])
  ++ (if is_empty alerts then [] else [rec_review])
  ++ match filter is_over_budget budget_df with
     | top :: _ => [rec_focus (row_category_name top)]
     | [] => []
     end.

End ReportVocabulary.

Section MerchantVocabulary.
Import ETL.

(** The number of debit transactions of a merchant. *)
Definition debit_count (db : database) (m : string) : Z :=
  Z.of_nat
    (List.length
       (filter (fun t => txn_type_eqb (transaction_type t) Debit
                         && opt_string_eqb (merchant t) (Some m))
               (transactions db))).

(** The transactions grouped under one merchant. *)
Definition merchant_group (db : database) (k : option string)
  : list transaction :=
  filter (fun t => opt_string_eqb (merchant t) k) (merchant_rows db).

End MerchantVocabulary.

Section SpendingVocabulary.

Variable db : database.
Variable today : date.

(** The debit transactions of the current month filed under [c]. *)
Definition category_debits (c : category) : list transaction :=
  filter (spending_on today c) (transactions db).

(** Their total: what the category spent this month. *)
Definition category_spend (c : category) : Q :=
  Qsum (map amount (category_debits c)).

(** The rows that the left join contributes for one category. *)
Definition joined_rows (c : category) : list (category * option transaction) :=
  match category_debits c with
  | [] => [(c, None)]
  | ts => map (fun t => (c, Some t)) ts
  end.

Definition cat_key (ct : category * option transaction) : Z * string :=
  (category_id (fst ct), category_name (fst ct)).

Definition has_parent (ct : category * option transaction) : bool :=
  is_some (parent_category_id (fst ct)).

(** The groups behind both [current_month_spending] subqueries. *)
Definition spending_groups
  : list ((Z * string) * list (category * option transaction)) :=
  group_by cat_key_eqb cat_key
    (filter has_parent
       (left_join (spending_on today) (categories db) (transactions db))).

End SpendingVocabulary.

(** What the report's evaluator says of category [c] under budget [b]. *)
Definition reports_row_for (db : database) (today : date)
           (c : category) (b : budget) (r : Reports.budget_row) : Prop :=
  Reports.row_category_name r = category_name c
  /\ Reports.row_budget r = budget_amount b
  /\ Reports.row_actual_spend r == category_spend db today c
  /\ Reports.variance r == budget_amount b - category_spend db today c
  /\ Reports.pct_used r =
     (if Qlt_bool 0 (budget_amount b)
      then round_half_away 1
             (category_spend db today c / budget_amount b * 100)
      else 0).

(** What the ETL's evaluator says of category [c] under budget [b]. *)
Definition etl_row_for (db : database) (today : date)
           (c : category) (b : budget) (r : ETL.budget_row) : Prop :=
  ETL.row_category_name r = category_name c
  /\ ETL.row_budget_amount r = budget_amount b
  /\ ETL.row_actual_spend r == category_spend db today c
  /\ ETL.variance r == budget_amount b - category_spend db today c
  /\ ETL.pct_used r =
     (if Qeq_bool (budget_amount b) 0 then None
      else Some (round_half_away 1
                   (category_spend db today c / budget_amount b * 100)))
  /\ ETL.num_transactions r
     = Z.of_nat (List.length (category_debits db today c)).

(** A category with a parent and an active budget on it. *)
Definition budgeted (db : database) (c : category) (b : budget) : Prop :=
  In c (categories db) /\ parent_category_id c <> None
  /\ In b (budgets db) /\ b_category_id b = category_id c
  /\ b_is_active b = true.

(** Whether each row may stand before its successor. *)
Fixpoint adjacent_ok {A : Type} (leb : A -> A -> bool) (l : list A) : bool :=
  match l with
  | x :: (y :: _) as rest => leb x y && adjacent_ok leb rest
  | _ => true
  end.

Section ExportVocabulary.

Variable frame : Type.
Variables xl_transactions xl_budget xl_monthly
          xl_category xl_merchant xl_goals : result frame.

(** The six sheets of the workbook, in the order they are written. *)
Definition sheet_steps : list (string * result frame) :=
  [ ("Transactions"%string, xl_transactions);
    ("Budget Performance"%string, xl_budget);
    ("Monthly Summary"%string, xl_monthly);
    ("Category Spending"%string, xl_category);
    ("Merchant Analysis"%string, xl_merchant);
    ("Financial Goals"%string, xl_goals) ].

(** The sheets whose step did not raise. *)
Definition produced (steps : list (string * result frame))
  : list (string * frame) :=
  flat_map (fun s => match snd s with
                     | Ok df => [(fst s, df)]
                     | Raise _ => []
                     end) steps.

(** The warnings of the steps that raised. *)
Definition reported (steps : list (string * result frame)) : list text :=
  flat_map (fun s => match snd s with
                     | Ok _ => []
                     | Raise e => [ETL.sheet_warning (fst s) e]
                     end) steps.

End ExportVocabulary.

Arguments sheet_steps {frame} _ _ _ _ _ _.
Arguments produced {frame} steps.
Arguments reported {frame} steps.

(** A name of an expense category that has a parent. *)
Definition expense_subcategory (db : database) (name : string) : bool :=
  existsb (fun c => is_some (parent_category_id c)
                    && String.eqb (category_name c) name
                    && cat_type_eqb (category_type c) Expense)
          (categories db).

(** A row of the category spending that counts for the current month's
    expenses. *)
Definition in_rollup (db : database) (today : date)
           (r : ETL.category_spend) : bool :=
  month_eqb (ETL.cs_month r) (date_trunc_month today)
  && expense_subcategory db (ETL.cs_category_name r).

(** The sum of the per-category totals of the month's expense categories. *)
Definition category_rollup (db : database) (today : date) : Q :=
  Qsum (map ETL.total_spend
            (filter (in_rollup db today) (ETL.extract_category_spending db))).

(** The expense total of the month, taken directly, over the transactions
    filed under a category with a parent. *)
Definition subcategory_expenses (db : database) (today : date) : Q :=
  Qsum (map Reports.expense_term
            (filter (fun tc => is_some (parent_category_id (snd tc)))
                    (Reports.current_month_rows db today))).

(** The month of a joined transaction. *)
Definition trend_month (tc : transaction * category) : Z * Z :=
  date_trunc_month (transaction_date (fst tc)).

(** The transactions with their category: [transactions t JOIN categories
    c ON t.category_id = c.category_id]. *)
Definition ledger (db : database) : list (transaction * category) :=
  inner_join (fun t c => (t_category_id t =? category_id c)%Z)
             (transactions db) (categories db).

(** The amounts of a month filed under categories of one type, whatever
    the transaction type. *)
Definition month_type_total (db : database) (m : Z * Z) (ty : cat_type) : Q :=
  Qsum (map (fun tc => amount (fst tc))
            (filter (fun tc =>
                       month_eqb (date_trunc_month (transaction_date (fst tc))) m
                       && cat_type_eqb (category_type (snd tc)) ty)
                    (ledger db))).

(** ** Sample data *)

Module Sample.

Definition today : date := mkDate 2025 6 14.





End Sample.

Module SampleBudget.

Definition today : date := mkDate 2025 6 14.

Definition cat (id : Z) (name : string) (parent : option Z) (ty : cat_type)
  : category := mkCategory id name parent ty true.

Definition spend (id cat_id day : Z) (amt : Q) (who : string)
  : transaction :=
  mkTransaction id 1 cat_id (mkDate 2025 6 day) amt "Purchase"
                (Some who) Debit false.

Definition monthly (cat_id : Z) (amt : Q) : budget :=
  mkBudget cat_id "monthly" amt (mkDate 2025 6 1) true.

Definition db : database :=
  {| categories :=
       [ cat 1 "Salary" None Income;
         cat 2 "Food" None Expense;
         cat 3 "Groceries" (Some 2%Z) Expense;
         cat 4 "Restaurants" (Some 2%Z) Expense;
         cat 5 "Coffee Shops" (Some 2%Z) Expense;
         cat 6 "Housing" None Expense;
         cat 7 "Rent/Mortgage" (Some 6%Z) Expense ];
     transactions :=
       [ mkTransaction 1 1 1 (mkDate 2025 6 1) 5000 "Monthly Salary Deposit"
                       (Some "Employer Inc"%string) Credit false;
         spend 2 3 2 400 "Safeway";
         spend 3 3 9 175 "Costco";
         spend 4 4 5 50 "Chipotle";
         spend 5 5 3 45 "Starbucks";
         spend 6 5 13 50 "Starbucks";
         spend 7 7 1 1000 "Landlord";
         spend 8 2 7 40 "Corner Market";
         spend 9 3 28 75 "Safeway" ];
     budgets :=
       [ monthly 3 600; monthly 4 0; monthly 5 100; monthly 7 2000;
         monthly 2 500 ];
     financial_goals := [] |}.

End SampleBudget.

Module SampleSummary.

Definition today : date := mkDate 2025 6 14.

Definition db : database :=
  {| categories :=
       [ mkCategory 1 "Salary" None Income false;
         mkCategory 2 "Food" None Expense true;
         mkCategory 3 "Groceries" (Some 2%Z) Expense true ];
     transactions :=
       [ mkTransaction 1 1 1 (mkDate 2025 5 1) 5000 "Monthly Salary Deposit"
                       (Some "Employer Inc"%string) Credit false;
         mkTransaction 2 1 3 (mkDate 2025 5 20) 100 "Purchase at Safeway"
                       (Some "Safeway"%string) Debit false;
         mkTransaction 3 1 3 (mkDate 2025 6 3) 50 "Purchase at Safeway"
                       (Some "Safeway"%string) Debit false;
         mkTransaction 4 1 3 (mkDate 2025 6 5) 20 "Refund from Safeway"
                       (Some "Safeway"%string) Credit false ];
     budgets := [];
     financial_goals := [] |}.

(** A month with an income of 5000 and expenses of 4200. *)
Definition scenario_db : database :=
  {| categories := categories db;
     transactions :=
       [ mkTransaction 1 1 1 (mkDate 2025 6 1) 5000 "Monthly Salary Deposit"
                       (Some "Employer Inc"%string) Credit false;
         mkTransaction 2 1 3 (mkDate 2025 6 2) 4200 "Purchase at Costco"
                       (Some "Costco"%string) Debit false ];
     budgets := [];
     financial_goals := [] |}.

End SampleSummary.

(** * Properties *)

(** ** Numbers *)

Lemma Qlt_bool_iff (x y : Q) : Qlt_bool x y = true <-> x < y.
Proof.
  unfold Qlt_bool. rewrite negb_true_iff. split.
  - intros H. apply Qnot_le_lt. intros Hle.
    apply Qle_bool_iff in Hle. congruence.
  - intros H. destruct (Qle_bool y x) eqn:E; [|reflexivity].
    apply Qle_bool_iff in E. exfalso. exact (Qlt_not_le _ _ H E).
Qed.

Lemma Qlt_bool_false_iff (x y : Q) : Qlt_bool x y = false <-> y <= x.
Proof.
  unfold Qlt_bool. rewrite negb_false_iff. apply Qle_bool_iff.
Qed.

Lemma Qle_bool_false_iff (x y : Q) : Qle_bool x y = false <-> y < x.
Proof.
  rewrite <- Qlt_bool_iff. unfold Qlt_bool.
  destruct (Qle_bool x y); simpl; split; congruence.
Qed.

Lemma Qeq_bool_false_iff (x y : Q) : Qeq_bool x y = false <-> ~ x == y.
Proof.
  split.
  - apply Qeq_bool_neq.
  - intros H. destruct (Qeq_bool x y) eqn:E; [|reflexivity].
    apply Qeq_bool_iff in E. contradiction.
Qed.

Lemma pow10_pos (d : nat) : 0 < pow10 d.
Proof.
  unfold pow10. change 0 with (inject_Z 0). rewrite <- Zlt_Qlt.
  apply Z.pow_pos_nonneg; lia.
Qed.

Lemma Qsum_app (l1 l2 : list Q) : Qsum (l1 ++ l2) == Qsum l1 + Qsum l2.
Proof.
  induction l1 as [|x l1 IH]; simpl.
  - ring.
  - rewrite IH. ring.
Qed.

Lemma Qsum_perm (l1 l2 : list Q) : Permutation l1 l2 -> Qsum l1 == Qsum l2.
Proof.
  induction 1; simpl.
  - reflexivity.
  - rewrite IHPermutation. reflexivity.
  - ring.
  - etransitivity; eassumption.
Qed.

(** The integer nearest to [s] is within a half of [s]. *)
Lemma floor_half_near (s : Q) :
  Qabs (inject_Z (Qfloor (s + (1 # 2))) - s) <= 1 # 2.
Proof.
  apply Qabs_Qle_condition.
  pose proof (Qlt_floor (s + (1 # 2))) as Hlt.
  pose proof (Qfloor_le (s + (1 # 2))) as Hle.
  rewrite inject_Z_plus in Hlt. change (inject_Z 1) with 1 in Hlt.
  generalize dependent (inject_Z (Qfloor (s + (1 # 2)))).
  intros q Hlt Hle. split; lra.
Qed.

(** Scaling back: an integer within a half of [x * 10^d] gives a decimal
    within half a unit of the last place of [x]. *)
Lemma scaled_near (d : nat) (x : Q) (n : Z) :
  Qabs (inject_Z n - x * pow10 d) <= 1 # 2 ->
  Qabs (inject_Z n / pow10 d - x) <= (1 # 2) / pow10 d.
Proof.
  intros H. pose proof (pow10_pos d) as Hp.
  assert (Hne : ~ pow10 d == 0) by (intros E; rewrite E in Hp; lra).
  setoid_replace (inject_Z n / pow10 d - x)
    with ((inject_Z n - x * pow10 d) / pow10 d) by (field; exact Hne).
  unfold Qdiv at 1. rewrite Qabs_Qmult.
  rewrite (Qabs_pos (/ pow10 d)).
  - unfold Qdiv. apply Qmult_le_compat_r; [exact H|].
    apply Qlt_le_weak, Qinv_lt_0_compat, Hp.
  - apply Qlt_le_weak, Qinv_lt_0_compat, Hp.
Qed.

(** [ROUND] is off by at most half a unit of the last place. *)
Lemma round_half_away_near (d : nat) (x : Q) :
  Qabs (round_half_away d x - x) <= (1 # 2) / pow10 d.
Proof.
  unfold round_half_away. apply scaled_near.
  destruct (Qle_bool 0 (x * pow10 d)).
  - apply floor_half_near.
  - rewrite inject_Z_opp.
    setoid_replace (- inject_Z (Qfloor (- (x * pow10 d) + (1 # 2))) - x * pow10 d)
      with (- (inject_Z (Qfloor (- (x * pow10 d) + (1 # 2))) - - (x * pow10 d)))
      by ring.
    rewrite Qabs_opp. apply floor_half_near.
Qed.

Lemma round_half_even_near (d : nat) (x : Q) :
  Qabs (round_half_even d x - x) <= (1 # 2) / pow10 d.
Proof.
  unfold round_half_even. apply scaled_near.
  set (s := x * pow10 d).
  pose proof (Qfloor_le s) as Hle. pose proof (Qlt_floor s) as Hlt.
  rewrite inject_Z_plus in Hlt. change (inject_Z 1) with 1 in Hlt.
  destruct (Qlt_bool (s - inject_Z (Qfloor s)) (1 # 2)) eqn:E1.
  - apply Qlt_bool_iff in E1. apply Qabs_Qle_condition.
    generalize dependent (inject_Z (Qfloor s)). intros q Hle Hlt E1.
    split; lra.
  - apply Qlt_bool_false_iff in E1.
    destruct (Qlt_bool (1 # 2) (s - inject_Z (Qfloor s))) eqn:E2.
    + rewrite inject_Z_plus. change (inject_Z 1) with 1.
      apply Qabs_Qle_condition.
      generalize dependent (inject_Z (Qfloor s)). intros q Hle Hlt E1.
      split; lra.
    + apply Qlt_bool_false_iff in E2.
      destruct (Z.even (Qfloor s)).
      * apply Qabs_Qle_condition.
        generalize dependent (inject_Z (Qfloor s)). intros q Hle Hlt E1 E2.
        split; lra.
      * rewrite inject_Z_plus. change (inject_Z 1) with 1.
        apply Qabs_Qle_condition.
        generalize dependent (inject_Z (Qfloor s)). intros q Hle Hlt E1 E2.
        split; lra.
Qed.

(** ** Relational operators *)

Section SqlFacts.
Context {A B K : Type}.

Lemma fold_left_snoc (f : A -> B) (l : list A) (acc : list B) :
  fold_left (fun acc x => acc ++ [f x]) l acc = acc ++ map f l.
Proof.
  revert acc. induction l as [|x l IH]; intros acc; simpl.
  - now rewrite app_nil_r.
  - rewrite IH, <- app_assoc. reflexivity.
Qed.

Lemma is_empty_false (l : list A) : is_empty l = false <-> l <> [].
Proof. destruct l; simpl; split; congruence. Qed.

Lemma in_inner_join (on : A -> B -> bool) la lb a b :
  In (a, b) (inner_join on la lb) <-> In a la /\ In b lb /\ on a b = true.
Proof.
  unfold inner_join. rewrite in_flat_map. split.
  - intros (a' & Ha & Hin). apply in_map_iff in Hin.
    destruct Hin as (b' & Heq & Hb). inversion Heq; subst.
    apply filter_In in Hb. tauto.
  - intros (Ha & Hb & Hon). exists a. split; [exact Ha|].
    apply in_map, filter_In. tauto.
Qed.

Lemma in_left_join (on : A -> B -> bool) la lb a ob :
  In (a, ob) (left_join on la lb) <->
  In a la /\
  match ob with
  | Some b => In b lb /\ on a b = true
  | None => filter (on a) lb = []
  end.
Proof.
  unfold left_join. rewrite in_flat_map. split.
  - intros (a' & Ha & Hin).
    destruct (filter (on a') lb) as [|b0 bs] eqn:E.
    + destruct Hin as [Heq|[]]. inversion Heq; subst. tauto.
    + rewrite <- E in Hin. apply in_map_iff in Hin.
      destruct Hin as (b' & Heq & Hb). inversion Heq; subst.
      apply filter_In in Hb. tauto.
  - intros (Ha & Hob). exists a. split; [exact Ha|].
    destruct ob as [b|].
    + assert (Hb : In b (filter (on a) lb)) by (apply filter_In; tauto).
      destruct (filter (on a) lb) as [|b0 bs] eqn:E; [destruct Hb|].
      rewrite <- E. rewrite E. now apply (in_map (fun b => (a, Some b))).
    + rewrite Hob. now left.
Qed.

(** *** [ORDER BY] *)

Lemma insert_by_perm (leb : A -> A -> bool) x l :
  Permutation (insert_by leb x l) (x :: l).
Proof.
  induction l as [|y l IH]; simpl.
  - reflexivity.
  - destruct (leb x y); [reflexivity|].
    rewrite IH. apply perm_swap.
Qed.

Lemma order_by_perm (leb : A -> A -> bool) l :
  Permutation (order_by leb l) l.
Proof.
  induction l as [|x l IH]; simpl.
  - reflexivity.
  - rewrite insert_by_perm. now constructor.
Qed.

Lemma in_order_by (leb : A -> A -> bool) l x :
  In x (order_by leb l) <-> In x l.
Proof.
  split; apply Permutation_in;
    [apply order_by_perm | apply Permutation_sym, order_by_perm].
Qed.

Section Sorted.
Variable leb : A -> A -> bool.
Hypothesis leb_total : forall a b, leb a b = true \/ leb b a = true.
Hypothesis leb_trans :
  forall a b c, leb a b = true -> leb b c = true -> leb a c = true.

Let le (a b : A) : Prop := leb a b = true.

Lemma insert_by_sorted x l :
  StronglySorted le l -> StronglySorted le (insert_by leb x l).
Proof.
  induction 1 as [|y l Hl IH Hy]; simpl.
  - repeat constructor.
  - destruct (leb x y) eqn:E.
    + constructor; [now constructor|].
      constructor; [exact E|].
      rewrite Forall_forall in *. intros z Hz.
      eapply leb_trans; [exact E | now apply Hy].
    + constructor; [exact IH|].
      rewrite Forall_forall in *. intros z Hz.
      apply (Permutation_in _ (insert_by_perm leb x l)) in Hz.
      destruct Hz as [<-|Hz]; [|now apply Hy].
      unfold le. destruct (leb_total x y); congruence.
Qed.

Lemma order_by_sorted l : StronglySorted le (order_by leb l).
Proof.
  induction l as [|x l IH]; simpl.
  - constructor.
  - now apply insert_by_sorted.
Qed.
End Sorted.

(** *** [GROUP BY] *)

Section Groups.
Variable eqb : K -> K -> bool.
Hypothesis eqb_eq : forall a b, eqb a b = true <-> a = b.

Lemma in_distinct (l : list K) k : In k (distinct eqb l) <-> In k l.
Proof.
  induction l as [|x l IH]; simpl; [tauto|].
  rewrite filter_In, IH, negb_true_iff. split.
  - tauto.
  - intros [->|H]; [now left|].
    destruct (eqb k x) eqn:E.
    + left. symmetry. now apply eqb_eq.
    + tauto.
Qed.

Lemma distinct_nodup (l : list K) : NoDup (distinct eqb l).
Proof.
  induction l as [|x l IH]; simpl; constructor.
  - rewrite filter_In, negb_true_iff. intros [_ H].
    assert (eqb x x = true) by now apply eqb_eq. congruence.
  - now apply NoDup_filter.
Qed.

Lemma in_group_by (key : A -> K) (l : list A) k rows :
  In (k, rows) (group_by eqb key l) <->
  In k (map key l) /\ rows = filter (fun a => eqb (key a) k) l.
Proof.
  unfold group_by. rewrite in_map_iff. split.
  - intros (k' & Heq & Hin). inversion Heq; subst.
    split; [exact (proj1 (in_distinct _ _) Hin) | reflexivity].
  - intros [Hin ->]. exists k. split; [reflexivity|].
    exact (proj2 (in_distinct _ _) Hin).
Qed.

Lemma group_by_keys (key : A -> K) (l : list A) :
  map fst (group_by eqb key l) = distinct eqb (map key l).
Proof.
  unfold group_by. rewrite map_map. simpl. apply map_id.
Qed.
End Groups.

End SqlFacts.

(** ** Alert classifier *)

Section Alerts.
Import Reports.

Lemma alerts_of_closed (df : list budget_row) :
  alerts_of df =
  map exceeded_alert (filter is_over_budget df)
  ++ map warning_alert (filter is_near_budget df).
Proof.
  unfold alerts_of.
  destruct (filter is_over_budget df) as [|o os] eqn:Eo;
    destruct (filter is_near_budget df) as [|n ns] eqn:En;
    cbn [is_empty negb]; rewrite ?fold_left_snoc, ?app_nil_r;
    reflexivity.
Qed.

Lemma is_over_budget_iff (r : budget_row) :
  is_over_budget r = true <-> 100 < pct_used r.
Proof. apply Qlt_bool_iff. Qed.

Lemma is_near_budget_iff (r : budget_row) :
  is_near_budget r = true <-> 90 <= pct_used r /\ pct_used r <= 100.
Proof.
  unfold is_near_budget. rewrite andb_true_iff, !Qle_bool_iff. tauto.
Qed.

(** The two bands are disjoint. *)
Lemma bands_disjoint (r : budget_row) :
  is_over_budget r && is_near_budget r = false.
Proof.
  destruct (is_over_budget r) eqn:Eo; [|reflexivity].
  destruct (is_near_budget r) eqn:En; [|reflexivity].
  apply is_over_budget_iff in Eo. apply is_near_budget_iff in En. lra.
Qed.

Lemma alerts_of_row (r : budget_row) :
  alerts_of [r] =
  if is_over_budget r then [exceeded_alert r]
  else if is_near_budget r then [warning_alert r]
  else [].
Proof.
  rewrite alerts_of_closed. simpl. pose proof (bands_disjoint r) as D.
  destruct (is_over_budget r), (is_near_budget r);
    simpl in *; congruence.
Qed.

Lemma alerts_of_cons (r : budget_row) (df : list budget_row) :
  Permutation (alerts_of (r :: df)) (alerts_of [r] ++ alerts_of df).
Proof.
  rewrite alerts_of_row, !alerts_of_closed. simpl.
  pose proof (bands_disjoint r) as D.
  destruct (is_over_budget r), (is_near_budget r); simpl in *;
    try discriminate; try reflexivity.
  symmetry. apply Permutation_middle.
Qed.

(** C3: the alert classifier gives a budget row exactly one alert,
    [budget_exceeded] of severity [high] whose message carries the actual
    spend and the absolute overage, when [pct_used > 100]; exactly one
    alert, [budget_warning] of severity [medium] whose message carries the
    percentage used, when [90 <= pct_used <= 100]; and no alert when
    [pct_used < 90].  A row at exactly 100 gets the warning, a row at
    100.01 the exceeded alert, and no row matches both rules.  The alerts
    of a frame are those of its rows. *)
Theorem alert_classifier_bands (df : list budget_row) (r : budget_row) :
  (100 < pct_used r -> alerts_of [r] = [exceeded_alert r])
  /\ (90 <= pct_used r /\ pct_used r <= 100 ->
      alerts_of [r] = [warning_alert r])
  /\ (pct_used r < 90 -> alerts_of [r] = [])
  /\ (pct_used r == 100 -> alerts_of [r] = [warning_alert r])
  /\ (pct_used r == 10001 # 100 -> alerts_of [r] = [exceeded_alert r])
  /\ is_over_budget r && is_near_budget r = false
  /\ (alert_type (exceeded_alert r) = "budget_exceeded"%string
      /\ severity (exceeded_alert r) = "high"%string
      /\ In (Fixed 2 (row_actual_spend r)) (message (exceeded_alert r))
      /\ In (Fixed 2 (Qabs (variance r))) (message (exceeded_alert r)))
  /\ (alert_type (warning_alert r) = "budget_warning"%string
      /\ severity (warning_alert r) = "medium"%string
      /\ In (Fixed 1 (pct_used r)) (message (warning_alert r)))
  /\ Permutation (alerts_of df) (flat_map (fun r => alerts_of [r]) df).
Proof.
  assert (Hover : 100 < pct_used r -> alerts_of [r] = [exceeded_alert r]).
  { intros H. rewrite alerts_of_row.
    apply is_over_budget_iff in H. now rewrite H. }
  assert (Hnear : 90 <= pct_used r /\ pct_used r <= 100 ->
                  alerts_of [r] = [warning_alert r]).
  { intros H. rewrite alerts_of_row. pose proof (bands_disjoint r) as D.
    apply is_near_budget_iff in H. rewrite H in *.
    rewrite andb_true_r in D. now rewrite D. }
  repeat split.
  - exact Hover.
  - exact Hnear.
  - intros H. rewrite alerts_of_row.
    destruct (is_over_budget r) eqn:Eo.
    { apply is_over_budget_iff in Eo. lra. }
    destruct (is_near_budget r) eqn:En; [|reflexivity].
    apply is_near_budget_iff in En. lra.
  - intros H. apply Hnear. rewrite H. split; discriminate.
  - intros H. apply Hover. rewrite H. reflexivity.
  - apply bands_disjoint.
  - simpl. tauto.
  - simpl. tauto.
  - simpl. tauto.
  - induction df as [|x df IH]; [reflexivity|].
    rewrite alerts_of_cons. simpl.
    apply Permutation_app_head, IH.
Qed.

Lemma alert_classifier_bands_witness :
  alerts_of [row_at 100] = [warning_alert (row_at 100)]
  /\ alerts_of [row_at (10001 # 100)] = [exceeded_alert (row_at (10001 # 100))]
  /\ alerts_of [row_at 50] = [].
Proof.
  split; [|split].
  - apply (alert_classifier_bands [] (row_at 100)). reflexivity.
  - apply (alert_classifier_bands [] (row_at (10001 # 100))). reflexivity.
  - apply (alert_classifier_bands [] (row_at 50)). reflexivity.
Defined.

End Alerts.

(** ** Aggregates *)

Lemma sql_sum_values_cons (x : Q) (l : list Q) :
  exists s, sql_sum (map Some (x :: l)) = Some s /\ s == Qsum (x :: l).
Proof.
  revert x. induction l as [|y l IH]; intros x.
  - exists x. split; [reflexivity|]. simpl. ring.
  - destruct (IH y) as (s & E & Hs).
    exists (x + s). split.
    + change (sql_sum (map Some (x :: y :: l)))
        with (match sql_sum (map Some (y :: l)) with
              | Some s => Some (x + s)
              | None => Some x
              end).
      now rewrite E.
    + change (Qsum (x :: y :: l)) with (x + Qsum (y :: l)).
      now rewrite Hs.
Qed.

Lemma sql_sum_values_some (l : list Q) :
  l <> [] -> exists s, sql_sum (map Some l) = Some s /\ s == Qsum l.
Proof.
  destruct l as [|x l]; [congruence|].
  intros _. apply sql_sum_values_cons.
Qed.

Lemma sql_sum_values (l : list Q) :
  oQeq (sql_sum (map Some l)) (if is_empty l then None else Some (Qsum l)).
Proof.
  destruct l as [|x l]; [exact I|].
  destruct (sql_sum_values_cons x l) as (s & E & Hs).
  rewrite E. exact Hs.
Qed.

(** ** Monthly summary of the report *)

Section ReportSummary.
Import Reports.

Variable db : database.
Variable today : date.

Let rows := current_month_rows db today.
Let s := get_monthly_summary db today.

Lemma summary_of_empty_month :
  rows = [] ->
  income s = None /\ expenses s = None /\ savings s = None
  /\ savings_rate s = Some 0.
Proof.
  unfold rows, s, get_monthly_summary, monthly_summary_query.
  intros ->. simpl. repeat split.
Qed.

Lemma summary_of_month :
  rows <> [] ->
  exists i e,
    income s = Some i /\ i == Qsum (map income_term rows)
    /\ expenses s = Some e /\ e == Qsum (map expense_term rows)
    /\ savings s = Some (i - e)
    /\ savings_rate s =
       Some (if Qlt_bool 0 i
             then round_half_away 2 ((i - e) / i * 100) else 0).
Proof.
  intros Hne.
  assert (Hi : map income_term rows <> [])
    by (destruct rows; simpl; congruence).
  assert (He : map expense_term rows <> [])
    by (destruct rows; simpl; congruence).
  destruct (sql_sum_values_some _ Hi) as (i & Ei & Hi').
  destruct (sql_sum_values_some _ He) as (e & Ee & He').
  rewrite map_map in Ei, Ee.
  exists i, e.
  unfold s, get_monthly_summary, monthly_summary_query.
  fold rows. cbn [income expenses savings savings_rate].
  rewrite Ei, Ee. cbn [lift2 option_map].
  repeat split; try assumption.
  destruct (Qlt_bool 0 i); reflexivity.
Qed.

(** The savings rate is a number in every case. *)
Lemma savings_rate_defined : exists rate, savings_rate s = Some rate.
Proof.
  destruct rows eqn:E.
  - exists 0. now apply summary_of_empty_month.
  - destruct summary_of_month as (i & e & _ & _ & _ & _ & _ & H).
    { fold rows in E |- *. rewrite E. discriminate. }
    eexists. exact H.
Qed.

End ReportSummary.

Lemma round_half_away_compat (d : nat) (x y : Q) :
  x == y -> round_half_away d x = round_half_away d y.
Proof.
  intros H. unfold round_half_away.
  assert (Hs : x * pow10 d == y * pow10 d) by now rewrite H.
  rewrite (Qleb_comp 0 0 (Qeq_refl 0) _ _ Hs).
  rewrite (Qfloor_comp (x * pow10 d + (1 # 2)) (y * pow10 d + (1 # 2)))
    by now rewrite Hs.
  rewrite (Qfloor_comp (- (x * pow10 d) + (1 # 2)) (- (y * pow10 d) + (1 # 2)))
    by now rewrite Hs.
  reflexivity.
Qed.


(** ** Recommendations *)

Section Recommendations.
Import Reports.

Lemma recommendations_closed rate budget_df alerts :
  recommendations rate budget_df alerts =
  if is_empty (ordered_rules rate budget_df alerts)
  then [rec_great; rec_keep]
  else ordered_rules rate budget_df alerts.
Proof.
  unfold recommendations, ordered_rules.
  destruct (Qlt_bool rate 20), alerts as [|a alerts],
    budget_df as [|r df]; try reflexivity;
    cbn [is_empty negb app];
    destruct (filter is_over_budget (r :: df)); reflexivity.
Qed.

Lemma by_pct_used_desc_total r1 r2 :
  by_pct_used_desc r1 r2 = true \/ by_pct_used_desc r2 r1 = true.
Proof.
  unfold by_pct_used_desc. rewrite !Qle_bool_iff.
  destruct (Qlt_le_dec (pct_used r1) (pct_used r2)); [right|left]; lra.
Qed.

Lemma by_pct_used_desc_trans r1 r2 r3 :
  by_pct_used_desc r1 r2 = true -> by_pct_used_desc r2 r3 = true ->
  by_pct_used_desc r1 r3 = true.
Proof. unfold by_pct_used_desc. rewrite !Qle_bool_iff. lra. Qed.

Lemma get_budget_performance_sorted db today :
  StronglySorted (fun r1 r2 => by_pct_used_desc r1 r2 = true)
                 (get_budget_performance db today).
Proof.
  apply order_by_sorted.
  - apply by_pct_used_desc_total.
  - apply by_pct_used_desc_trans.
Qed.


End Recommendations.

Section RecommendationRules.
Import Reports.

Lemma rules_fire rate budget_df alerts :
  let recs := recommendations rate budget_df alerts in
  (In rec_savings recs <-> rate < 20)
  /\ (In rec_review recs <-> alerts <> [])
  /\ (forall name,
        In (rec_focus name) recs <->
        exists top rest,
          filter is_over_budget budget_df = top :: rest
          /\ row_category_name top = name)
  /\ (recs = [rec_great; rec_keep] <->
      ordered_rules rate budget_df alerts = []).
Proof.
  cbv zeta. rewrite recommendations_closed. unfold ordered_rules.
  rewrite <- Qlt_bool_iff.
  destruct (Qlt_bool rate 20), alerts as [|a alerts],
    (filter is_over_budget budget_df) as [|top rest];
    cbn [is_empty app In];
    (split; [|split; [|split]]);
    try (intros name);
    (split; intros H);
    repeat match goal with
      | H : _ \/ _ |- _ => destruct H as [H|H]
      | H : False |- _ => destruct H
      | H : exists _, _ |- _ => destruct H as (? & H)
      | H : _ /\ _ |- _ => destruct H as [H ?]
      end;
    try discriminate; try congruence;
    try (inversion H; subst; eauto 6; fail);
    try (subst; auto 6; fail).
Qed.

End RecommendationRules.

Section MonthlyReport.
Import Reports.


End MonthlyReport.

(** ** Goal tracker *)

Section Goals.
Import ETL.

Lemma by_priority_pct_desc_perm db today :
  Permutation (goals_query db today)
              (map (goal_row_of today)
                   (filter g_is_active (financial_goals db))).
Proof. apply order_by_perm. Qed.






End Goals.

Section GoalTracker.
Import ETL.




End GoalTracker.

(** ** Merchant profiler *)

Section Merchants.
Import ETL.

Lemma opt_string_eqb_eq (a b : option string) :
  opt_string_eqb a b = true <-> a = b.
Proof.
  destruct a as [x|], b as [y|]; simpl; try (split; congruence).
  rewrite String.eqb_eq. split; congruence.
Qed.

Lemma filter_filter_and {A : Type} (f g : A -> bool) (l : list A) :
  filter f (filter g l) = filter (fun x => g x && f x) l.
Proof.
  induction l as [|x l IH]; simpl; [reflexivity|].
  destruct (g x); simpl; [destruct (f x)|]; now rewrite IH.
Qed.

Lemma merchant_group_count db m :
  Z.of_nat (List.length (merchant_group db (Some m))) = debit_count db m.
Proof.
  unfold merchant_group, merchant_rows, debit_count.
  rewrite filter_filter_and. do 2 f_equal. apply filter_ext.
  intros t. destruct (merchant t); simpl;
    now rewrite ?andb_true_r, ?andb_false_r.
Qed.

Lemma in_merchant_rows_key db k :
  In k (map merchant (merchant_rows db)) -> exists m, k = Some m.
Proof.
  rewrite in_map_iff. intros (t & <- & Ht).
  apply filter_In in Ht. destruct Ht as [_ Ht].
  apply andb_true_iff in Ht. destruct Ht as [_ Ht].
  destruct (merchant t) as [m|]; [eauto|discriminate].
Qed.

Lemma in_extract_merchant_analysis db r :
  In r (extract_merchant_analysis db) <->
  exists m,
    (2 <= debit_count db m)%Z
    /\ r = merchant_row_of (Some m, merchant_group db (Some m)).
Proof.
  unfold extract_merchant_analysis.
  rewrite in_order_by, in_map_iff. split.
  - intros ([k rows] & <- & Hg). apply filter_In in Hg.
    destruct Hg as [Hg Hn]. apply in_group_by in Hg;
      [|apply opt_string_eqb_eq].
    destruct Hg as [Hk ->].
    destruct (in_merchant_rows_key _ _ Hk) as (m & ->).
    exists m. split; [|reflexivity].
    rewrite <- merchant_group_count. apply Z.leb_le. exact Hn.
  - intros (m & Hn & ->).
    exists (Some m, merchant_group db (Some m)). split; [reflexivity|].
    rewrite <- merchant_group_count in Hn.
    apply filter_In. split; [|apply Z.leb_le; exact Hn].
    apply in_group_by; [apply opt_string_eqb_eq|].
    split; [|reflexivity].
    destruct (merchant_group db (Some m)) as [|t ts] eqn:E;
      [simpl in Hn; lia|].
    assert (Ht : In t (merchant_group db (Some m)))
      by (rewrite E; now left).
    apply filter_In in Ht. destruct Ht as [Ht Hm].
    apply opt_string_eqb_eq in Hm. rewrite <- Hm. now apply in_map.
Qed.

Lemma sql_min_date_some (l : list date) :
  l <> [] -> exists d, sql_min_date l = Some d.
Proof. destruct l; [congruence|]. simpl. eauto. Qed.

Lemma sql_max_date_some (l : list date) :
  l <> [] -> exists d, sql_max_date l = Some d.
Proof. destruct l; [congruence|]. simpl. eauto. Qed.

(** C5: a merchant is in the output of the merchant profiler exactly
    when it has at least two debit transactions; for a merchant in the
    output the count is at least 2, [days_active] is the number of days
    from the first to the last transaction, the divisor [count - 1] is not
    zero and [avg_days_between] is the finite quotient
    [days_active / (count - 1)]. *)
Theorem merchant_profile_floor (db : database) :
  (forall m,
     In (Some m) (map mr_merchant (extract_merchant_analysis db)) <->
     (2 <= debit_count db m)%Z)
  /\ (forall r,
        In r (extract_merchant_analysis db) ->
        exists m first last,
          mr_merchant r = Some m
          /\ transaction_count r = debit_count db m
          /\ (2 <= transaction_count r)%Z
          /\ first_transaction r = Some first
          /\ last_transaction r = Some last
          /\ days_active r = Some (diff_days last first)
          /\ ~ inject_Z (transaction_count r - 1) == 0
          /\ avg_days_between r =
             Fin (inject_Z (diff_days last first)
                  / inject_Z (transaction_count r - 1))).
Proof.
  split.
  - intros m. rewrite in_map_iff. split.
    + intros (r & Hm & Hr). apply in_extract_merchant_analysis in Hr.
      destruct Hr as (m' & Hn & ->). simpl in Hm.
      inversion Hm; subst. exact Hn.
    + intros Hn. exists (merchant_row_of (Some m, merchant_group db (Some m))).
      split; [reflexivity|].
      apply in_extract_merchant_analysis. eauto.
  - intros r Hr. apply in_extract_merchant_analysis in Hr.
    destruct Hr as (m & Hn & ->).
    pose proof (merchant_group_count db m) as Hc.
    assert (Hne : map transaction_date (merchant_group db (Some m)) <> []).
    { destruct (merchant_group db (Some m)); simpl in *; [lia|congruence]. }
    destruct (sql_min_date_some _ Hne) as (first & Hf).
    destruct (sql_max_date_some _ Hne) as (last & Hl).
    assert (Hnz : ~ inject_Z (debit_count db m - 1) == 0).
    { change 0 with (inject_Z 0). rewrite inject_Z_injective. lia. }
    exists m, first, last.
    unfold merchant_row_of.
    cbn [mr_merchant transaction_count first_transaction last_transaction
         days_active avg_days_between fst snd].
    rewrite Hf, Hl, Hc. cbn [days_between per_interval fdiv].
    apply Qeq_bool_false_iff in Hnz. rewrite Hnz.
    apply Qeq_bool_false_iff in Hnz.
    repeat split; try reflexivity; assumption.
Qed.

End Merchants.

(** ** Current-month spending *)

Section Spending.

Variable db : database.
Variable today : date.

Lemma cat_key_eqb_eq (a b : Z * string) : cat_key_eqb a b = true <-> a = b.
Proof.
  destruct a as [i n], b as [j m]. unfold cat_key_eqb. simpl.
  rewrite andb_true_iff, Z.eqb_eq, String.eqb_eq. split.
  - intros [-> ->]. reflexivity.
  - intros H. inversion H. auto.
Qed.

Lemma joined_rows_fst c ct : In ct (joined_rows db today c) -> fst ct = c.
Proof.
  unfold joined_rows. destruct (category_debits db today c).
  - intros [<-|[]]. reflexivity.
  - rewrite in_map_iff. intros (t' & <- & _). reflexivity.
Qed.

Lemma joined_rows_nonempty c : joined_rows db today c <> [].
Proof.
  unfold joined_rows. destruct (category_debits db today c); simpl; congruence.
Qed.

Lemma left_join_rows (cats : list category) :
  left_join (spending_on today) cats (transactions db) =
  flat_map (joined_rows db today) cats.
Proof. reflexivity. Qed.

(** A filter on the category commutes with the join. *)
Lemma filter_joined (p : category -> bool) (cats : list category) :
  filter (fun ct => p (fst ct)) (flat_map (joined_rows db today) cats) =
  flat_map (joined_rows db today) (filter p cats).
Proof.
  induction cats as [|c cats IH]; simpl; [reflexivity|].
  rewrite filter_app, IH.
  assert (H : filter (fun ct => p (fst ct)) (joined_rows db today c) =
              if p c then joined_rows db today c else []).
  { destruct (p c) eqn:E.
    - apply forallb_filter_id. apply forallb_forall.
      intros ct Hct. now rewrite (joined_rows_fst _ _ Hct).
    - generalize (joined_rows_fst c).
      induction (joined_rows db today c) as [|x l IHl]; intros Hfst; simpl.
      + reflexivity.
      + rewrite (Hfst x (or_introl eq_refl)), E.
        apply IHl. intros ct Hct. apply Hfst. now right. }
  rewrite H. destruct (p c); reflexivity.
Qed.

Lemma in_spending_groups k rows :
  In (k, rows) (spending_groups db today) <->
  (exists c, In c (categories db) /\ parent_category_id c <> None
             /\ k = (category_id c, category_name c))
  /\ rows =
     flat_map (joined_rows db today)
       (filter (fun c => is_some (parent_category_id c)
                         && cat_key_eqb (category_id c, category_name c) k)
               (categories db)).
Proof.
  unfold spending_groups.
  rewrite (in_group_by cat_key_eqb cat_key_eqb_eq).
  rewrite left_join_rows.
  change (filter has_parent (flat_map (joined_rows db today) (categories db)))
    with (filter (fun ct => is_some (parent_category_id (fst ct)))
                 (flat_map (joined_rows db today) (categories db))).
  rewrite (filter_joined (fun c => is_some (parent_category_id c))).
  change (fun a : category * option transaction => cat_key_eqb (cat_key a) k)
    with (fun ct : category * option transaction =>
            (fun c => cat_key_eqb (category_id c, category_name c) k)
              (fst ct)).
  rewrite (filter_joined
             (fun c => cat_key_eqb (category_id c, category_name c) k)).
  rewrite filter_filter_and.
  assert (Hkeys :
    In k (map cat_key
            (flat_map (joined_rows db today)
               (filter (fun c => is_some (parent_category_id c))
                       (categories db)))) <->
    exists c, In c (categories db) /\ parent_category_id c <> None
              /\ k = (category_id c, category_name c)).
  { rewrite in_map_iff. split.
    - intros (ct & <- & Hct). apply in_flat_map in Hct.
      destruct Hct as (c & Hc & Hct). apply filter_In in Hc.
      destruct Hc as [Hc Hp]. exists c.
      split; [exact Hc|]. split.
      + destruct (parent_category_id c); discriminate.
      + unfold cat_key. now rewrite (joined_rows_fst _ _ Hct).
    - intros (c & Hc & Hp & ->).
      destruct (joined_rows db today c) as [|ct l] eqn:E;
        [now apply joined_rows_nonempty in E|].
      assert (Hct : In ct (joined_rows db today c)) by (rewrite E; now left).
      exists ct. split.
      + unfold cat_key. now rewrite (joined_rows_fst _ _ Hct).
      + apply in_flat_map. exists c. split; [|exact Hct].
        apply filter_In. split; [exact Hc|].
        destruct (parent_category_id c); [reflexivity|congruence]. }
  rewrite Hkeys. tauto.
Qed.

End Spending.

Section SpendingByKey.

Variable db : database.
Variable today : date.

(** [category_id] is the primary key of [categories]. *)
Hypothesis category_id_unique : NoDup (map category_id (categories db)).

Lemma filter_none {A : Type} (p : A -> bool) (l : list A) :
  (forall x, In x l -> p x = false) -> filter p l = [].
Proof.
  induction l as [|x l IH]; intros H; simpl; [reflexivity|].
  rewrite (H x (or_introl eq_refl)). apply IH.
  intros y Hy. apply H. now right.
Qed.

Lemma only_category_of_key (c : category) :
  In c (categories db) -> parent_category_id c <> None ->
  filter (fun c' => is_some (parent_category_id c')
                    && cat_key_eqb (category_id c', category_name c')
                                   (category_id c, category_name c))
         (categories db) = [c].
Proof.
  intros Hc Hp. revert category_id_unique Hc.
  induction (categories db) as [|x l IH]; intros Hnd Hc; [destruct Hc|].
  simpl in Hnd. inversion Hnd as [|? ? Hx Hl]; subst.
  assert (Hkey : forall y, In y l -> category_id y <> category_id x).
  { intros y Hy E. apply Hx. rewrite <- E. now apply in_map. }
  simpl. destruct Hc as [->|Hc].
  - assert (Hself : is_some (parent_category_id c)
                    && cat_key_eqb (category_id c, category_name c)
                                   (category_id c, category_name c) = true).
    { apply andb_true_iff. split.
      - destruct (parent_category_id c); [reflexivity|congruence].
      - now apply cat_key_eqb_eq. }
    rewrite Hself. f_equal. apply filter_none.
    intros y Hy. apply andb_false_iff. right.
    destruct (cat_key_eqb (category_id y, category_name y)
                          (category_id c, category_name c)) eqn:E;
      [|reflexivity].
    apply cat_key_eqb_eq in E. inversion E.
    exfalso. now apply (Hkey y Hy).
  - assert (Hx' : is_some (parent_category_id x)
                  && cat_key_eqb (category_id x, category_name x)
                                 (category_id c, category_name c) = false).
    { apply andb_false_iff. right.
      destruct (cat_key_eqb (category_id x, category_name x)
                            (category_id c, category_name c)) eqn:E;
        [|reflexivity].
      apply cat_key_eqb_eq in E. inversion E as [[E1 E2]].
      exfalso. apply (Hkey c Hc). now symmetry. }
    rewrite Hx'. now apply IH.
Qed.

Lemma group_of_category k rows :
  In (k, rows) (spending_groups db today) ->
  exists c, In c (categories db) /\ parent_category_id c <> None
            /\ k = (category_id c, category_name c)
            /\ rows = joined_rows db today c.
Proof.
  intros H. apply in_spending_groups in H.
  destruct H as ((c & Hc & Hp & ->) & ->).
  exists c. repeat split; try assumption.
  rewrite (only_category_of_key c Hc Hp). simpl. apply app_nil_r.
Qed.

Lemma category_has_group (c : category) :
  In c (categories db) -> parent_category_id c <> None ->
  In ((category_id c, category_name c), joined_rows db today c)
     (spending_groups db today).
Proof.
  intros Hc Hp. apply in_spending_groups. split; [eauto|].
  rewrite (only_category_of_key c Hc Hp). simpl.
  symmetry. apply app_nil_r.
Qed.

Lemma joined_sum (c : category) :
  coalesce (sql_sum (map (fun ct => option_map amount (snd ct))
                         (joined_rows db today c))) 0
  == category_spend db today c.
Proof.
  unfold joined_rows, category_spend.
  destruct (category_debits db today c) as [|t ts] eqn:E.
  - reflexivity.
  - rewrite map_map.
    change (map (fun x => option_map amount (snd (c, Some x))) (t :: ts))
      with (map (fun x => Some (amount x)) (t :: ts)).
    rewrite <- (map_map amount Some).
    destruct (sql_sum_values_some (map amount (t :: ts))) as (s & Es & Hs);
      [discriminate|].
    rewrite Es. exact Hs.
Qed.

Lemma joined_count (c : category) :
  sql_count (map (fun ct => option_map transaction_id (snd ct))
                 (joined_rows db today c))
  = Z.of_nat (List.length (category_debits db today c)).
Proof.
  unfold joined_rows, sql_count.
  destruct (category_debits db today c) as [|t ts] eqn:E.
  - reflexivity.
  - rewrite map_map. f_equal.
    generalize (t :: ts). intros l.
    induction l as [|x l IH]; [reflexivity|].
    cbn [map filter option_map snd List.length]. now f_equal.
Qed.

End SpendingByKey.

(** ** Budget evaluator *)

Section BudgetRows.

Variable db : database.
Variable today : date.
Hypothesis category_id_unique : NoDup (map category_id (categories db)).

Lemma reports_spending_sound cms :
  In cms (Reports.current_month_spending db today) ->
  exists c, In c (categories db) /\ parent_category_id c <> None
            /\ Reports.cms_category_id cms = category_id c
            /\ Reports.cms_category_name cms = category_name c
            /\ Reports.actual_spend cms == category_spend db today c.
Proof.
  unfold Reports.current_month_spending. rewrite in_map_iff.
  intros ([k rows] & <- & Hg).
  apply (group_of_category db today category_id_unique) in Hg.
  destruct Hg as (c & Hc & Hp & -> & ->).
  exists c. repeat split; try assumption. apply joined_sum.
Qed.

Lemma reports_spending_complete c :
  In c (categories db) -> parent_category_id c <> None ->
  exists cms, In cms (Reports.current_month_spending db today)
              /\ Reports.cms_category_id cms = category_id c
              /\ Reports.cms_category_name cms = category_name c.
Proof.
  intros Hc Hp.
  pose proof (category_has_group db today category_id_unique c Hc Hp) as Hg.
  eexists. split.
  - unfold Reports.current_month_spending. apply in_map_iff.
    eexists. split; [reflexivity|]. exact Hg.
  - split; reflexivity.
Qed.

Lemma etl_spending_sound cms :
  In cms (ETL.current_month_spending db today) ->
  exists c, In c (categories db) /\ parent_category_id c <> None
            /\ ETL.cms_category_id cms = category_id c
            /\ ETL.cms_category_name cms = category_name c
            /\ ETL.actual_spend cms == category_spend db today c
            /\ ETL.cms_num_transactions cms
               = Z.of_nat (List.length (category_debits db today c)).
Proof.
  unfold ETL.current_month_spending. rewrite in_map_iff.
  intros ([k rows] & <- & Hg).
  apply (group_of_category db today category_id_unique) in Hg.
  destruct Hg as (c & Hc & Hp & -> & ->).
  exists c. repeat split; try assumption.
  - apply joined_sum.
  - apply joined_count.
Qed.

Lemma etl_spending_complete c :
  In c (categories db) -> parent_category_id c <> None ->
  exists cms, In cms (ETL.current_month_spending db today)
              /\ ETL.cms_category_id cms = category_id c
              /\ ETL.cms_category_name cms = category_name c.
Proof.
  intros Hc Hp.
  pose proof (category_has_group db today category_id_unique c Hc Hp) as Hg.
  eexists. split.
  - unfold ETL.current_month_spending. apply in_map_iff.
    eexists. split; [reflexivity|]. exact Hg.
  - split; reflexivity.
Qed.

Lemma in_reports_budget_performance r :
  In r (Reports.get_budget_performance db today) <->
  exists cms b,
    In cms (Reports.current_month_spending db today)
    /\ In b (budgets db)
    /\ Reports.cms_category_id cms = b_category_id b
    /\ b_is_active b = true
    /\ r = Reports.budget_row_of (cms, Some b).
Proof.
  unfold Reports.get_budget_performance.
  rewrite in_order_by, in_map_iff. split.
  - intros ([cms ob] & <- & H). apply filter_In in H.
    destruct H as [H Hsome]. apply in_left_join in H.
    destruct H as [Hcms Hb]. destruct ob as [b|]; [|discriminate].
    destruct Hb as [Hb Hon]. apply andb_true_iff in Hon.
    destruct Hon as [Hid Hact]. apply Z.eqb_eq in Hid.
    exists cms, b. auto.
  - intros (cms & b & Hcms & Hb & Hid & Hact & ->).
    exists (cms, Some b). split; [reflexivity|].
    apply filter_In. split; [|reflexivity].
    apply in_left_join. split; [exact Hcms|]. split; [exact Hb|].
    apply andb_true_iff. split; [now apply Z.eqb_eq|exact Hact].
Qed.

Lemma in_etl_budget_performance r :
  In r (ETL.extract_budget_performance db today) <->
  exists b cms,
    In b (budgets db)
    /\ In cms (ETL.current_month_spending db today)
    /\ b_category_id b = ETL.cms_category_id cms
    /\ b_is_active b = true
    /\ budget_period b = "monthly"%string
    /\ r = ETL.budget_row_of (b, cms).
Proof.
  unfold ETL.extract_budget_performance.
  rewrite in_order_by, in_map_iff. split.
  - intros ([b cms] & <- & H). apply filter_In in H.
    destruct H as [H Hf]. apply in_inner_join in H.
    destruct H as (Hb & Hcms & Hid). apply Z.eqb_eq in Hid.
    apply andb_true_iff in Hf. destruct Hf as [Hact Hper].
    apply String.eqb_eq in Hper. exists b, cms. auto 7.
  - intros (b & cms & Hb & Hcms & Hid & Hact & Hper & ->).
    exists (b, cms). split; [reflexivity|].
    apply filter_In. split.
    + apply in_inner_join. split; [exact Hb|]. split; [exact Hcms|].
      now apply Z.eqb_eq.
    + apply andb_true_iff. split; [exact Hact|].
      now apply String.eqb_eq.
Qed.

End BudgetRows.

Section BudgetEvaluator.

Variable db : database.
Variable today : date.
Hypothesis category_id_unique : NoDup (map category_id (categories db)).

Lemma reports_row_sound r :
  In r (Reports.get_budget_performance db today) ->
  exists c b, budgeted db c b /\ reports_row_for db today c b r.
Proof.
  intros Hr. apply in_reports_budget_performance in Hr.
  destruct Hr as (cms & b & Hcms & Hb & Hid & Hact & ->).
  destruct (reports_spending_sound db today category_id_unique cms Hcms)
    as (c & Hc & Hp & Hcid & Hname & Hspend).
  exists c, b. unfold budgeted, reports_row_for, Reports.budget_row_of.
  cbn [fst snd option_map coalesce Reports.row_category_name
       Reports.row_budget Reports.row_actual_spend Reports.variance
       Reports.pct_used].
  repeat split; try assumption; try congruence.
  - now rewrite Hspend.
  - destruct (Qlt_bool 0 (budget_amount b)); [|reflexivity].
    apply round_half_away_compat. now rewrite Hspend.
Qed.

Lemma etl_row_sound r :
  In r (ETL.extract_budget_performance db today) ->
  exists c b, budgeted db c b /\ budget_period b = "monthly"%string
              /\ etl_row_for db today c b r.
Proof.
  intros Hr. apply in_etl_budget_performance in Hr.
  destruct Hr as (b & cms & Hb & Hcms & Hid & Hact & Hper & ->).
  destruct (etl_spending_sound db today category_id_unique cms Hcms)
    as (c & Hc & Hp & Hcid & Hname & Hspend & Hnum).
  exists c, b. unfold budgeted, etl_row_for, ETL.budget_row_of, nullif0.
  cbn [fst snd ETL.row_category_name ETL.row_budget_amount
       ETL.row_actual_spend ETL.variance ETL.pct_used ETL.num_transactions].
  repeat split; try assumption; try congruence.
  - now rewrite Hspend.
  - destruct (Qeq_bool (budget_amount b) 0); [reflexivity|].
    cbn [lift2 option_map]. f_equal.
    apply round_half_away_compat. now rewrite Hspend.
Qed.

Lemma reports_row_complete c b :
  budgeted db c b ->
  exists r, In r (Reports.get_budget_performance db today)
            /\ Reports.row_category_name r = category_name c
            /\ Reports.row_budget r = budget_amount b.
Proof.
  intros (Hc & Hp & Hb & Hid & Hact).
  destruct (reports_spending_complete db today category_id_unique c Hc Hp)
    as (cms & Hcms & Hcid & Hname).
  exists (Reports.budget_row_of (cms, Some b)). split.
  - apply in_reports_budget_performance. exists cms, b.
    repeat split; try assumption. congruence.
  - split; [exact Hname | reflexivity].
Qed.

Lemma etl_row_complete c b :
  budgeted db c b -> budget_period b = "monthly"%string ->
  exists r, In r (ETL.extract_budget_performance db today)
            /\ ETL.row_category_name r = category_name c
            /\ ETL.row_budget_amount r = budget_amount b.
Proof.
  intros (Hc & Hp & Hb & Hid & Hact) Hper.
  destruct (etl_spending_complete db today category_id_unique c Hc Hp)
    as (cms & Hcms & Hcid & Hname).
  exists (ETL.budget_row_of (b, cms)). split.
  - apply in_etl_budget_performance. exists b, cms.
    repeat split; try assumption. congruence.
  - split; [exact Hname | reflexivity].
Qed.

End BudgetEvaluator.

Lemma sample_budget_ids_unique :
  NoDup (map category_id (categories SampleBudget.db)).
Proof.
  simpl. repeat constructor; simpl; intuition discriminate.
Qed.

(** C2, as amended: with [category_id] a key of [categories], every row
    of either budget evaluator belongs to a category that has a parent and
    an active budget (a monthly one, for the ETL); its actual spend is the
    total of the category's debit transactions of the month, 0 when there
    are none, its variance is budget minus actual, and its [pct_used] is
    [actual / budget * 100] rounded to one decimal.  On a budget of 0 the
    report's evaluator gives 0 and the ETL's evaluator gives null; neither
    divides by zero.  Every such category has a row. *)
Theorem budget_evaluator_metrics (db : database) (today : date) :
  NoDup (map category_id (categories db)) ->
  (forall r, In r (Reports.get_budget_performance db today) ->
             exists c b, budgeted db c b /\ reports_row_for db today c b r)
  /\ (forall r, In r (ETL.extract_budget_performance db today) ->
                exists c b, budgeted db c b
                            /\ budget_period b = "monthly"%string
                            /\ etl_row_for db today c b r)
  /\ (forall c b,
        budgeted db c b ->
        (exists r, In r (Reports.get_budget_performance db today)
                   /\ Reports.row_category_name r = category_name c
                   /\ Reports.row_budget r = budget_amount b)
        /\ (budget_period b = "monthly"%string ->
            exists r, In r (ETL.extract_budget_performance db today)
                      /\ ETL.row_category_name r = category_name c
                      /\ ETL.row_budget_amount r = budget_amount b))
  /\ (forall c, category_debits db today c = [] ->
                category_spend db today c == 0)
  /\ (forall c b r, reports_row_for db today c b r ->
                    budget_amount b == 0 -> Reports.pct_used r = 0)
  /\ (forall c b r, etl_row_for db today c b r ->
                    budget_amount b == 0 -> ETL.pct_used r = None).
Proof.
  intros Hkey. split; [|split; [|split; [|split; [|split]]]].
  - intros r. now apply reports_row_sound.
  - intros r. now apply etl_row_sound.
  - intros c b Hcb. split.
    + now apply reports_row_complete.
    + now apply etl_row_complete.
  - intros c Hc. unfold category_spend. rewrite Hc. reflexivity.
  - intros c b r (_ & _ & _ & _ & Hpct) Hz. rewrite Hpct.
    assert (E : Qlt_bool 0 (budget_amount b) = false)
      by (apply Qlt_bool_false_iff; rewrite Hz; discriminate).
    now rewrite E.
  - intros c b r (_ & _ & _ & _ & Hpct & _) Hz. rewrite Hpct.
    apply Qeq_bool_iff in Hz. now rewrite Hz.
Qed.

Lemma budget_evaluator_metrics_witness :
  (forall r,
     In r (Reports.get_budget_performance SampleBudget.db SampleBudget.today) ->
     exists c b, budgeted SampleBudget.db c b
                 /\ reports_row_for SampleBudget.db SampleBudget.today c b r)
  /\ (forall r,
        In r (ETL.extract_budget_performance SampleBudget.db
                                             SampleBudget.today) ->
        exists c b, budgeted SampleBudget.db c b
                    /\ budget_period b = "monthly"%string
                    /\ etl_row_for SampleBudget.db SampleBudget.today c b r).
Proof.
  pose proof (budget_evaluator_metrics SampleBudget.db SampleBudget.today
                sample_budget_ids_unique) as H.
  split; [exact (proj1 H) | exact (proj1 (proj2 H))].
Defined.

(** The claim that [pct_used] is 0, not null, on a budget of 0 fails for
    the ETL's evaluator: the row of Restaurants, with a budget of 0 and 50
    spent, has a null [pct_used]. *)
Lemma etl_pct_used_null_on_zero_budget :
  exists r,
    In r (ETL.extract_budget_performance SampleBudget.db SampleBudget.today)
    /\ ETL.row_category_name r = "Restaurants"%string
    /\ ETL.row_budget_amount r == 0
    /\ 0 < ETL.row_actual_spend r
    /\ ETL.pct_used r = None
    /\ ~ oQeq (ETL.pct_used r) (Some 0).
Proof.
  assert (E : existsb
                (fun r => String.eqb (ETL.row_category_name r) "Restaurants"
                          && Qeq_bool (ETL.row_budget_amount r) 0
                          && Qlt_bool 0 (ETL.row_actual_spend r)
                          && negb (is_some (ETL.pct_used r)))
                (ETL.extract_budget_performance SampleBudget.db
                                                SampleBudget.today) = true)
    by (vm_compute; reflexivity).
  apply existsb_exists in E. destruct E as (r & Hin & Hr).
  rewrite !andb_true_iff in Hr. destruct Hr as (((Hn & Hb) & Ha) & Hp).
  exists r. split; [exact Hin|].
  apply String.eqb_eq in Hn. apply Qeq_bool_iff in Hb.
  apply Qlt_bool_iff in Ha.
  destruct (ETL.pct_used r) eqn:E; [discriminate|].
  repeat split; try assumption. intros [].
Qed.

(** ** Top-level categories *)

Lemma category_of_id (db : database) (c p : category) :
  NoDup (map category_id (categories db)) ->
  In c (categories db) -> In p (categories db) ->
  category_id c = category_id p -> c = p.
Proof.
  induction (categories db) as [|x l IH]; intros Hnd Hc Hp Hid;
    [destruct Hc|].
  simpl in Hnd. inversion Hnd as [|? ? Hx Hl]; subst.
  destruct Hc as [->|Hc], Hp as [->|Hp].
  - reflexivity.
  - exfalso. apply Hx. rewrite Hid. now apply in_map.
  - exfalso. apply Hx. rewrite <- Hid. now apply in_map.
  - now apply IH.
Qed.

(** C10: with [category_id] a key of [categories], a category [p] without
    a parent has no row in either budget evaluator, whatever budget it
    holds: every row belongs to another category, one that has a parent,
    and carries the total of the debit transactions filed under that very
    category; a transaction filed under [p] is counted in no row. *)
Theorem budget_rows_only_for_subcategories
        (db : database) (today : date) (p : category) :
  NoDup (map category_id (categories db)) ->
  In p (categories db) -> parent_category_id p = None ->
  (forall cms, In cms (Reports.current_month_spending db today) ->
               Reports.cms_category_id cms <> category_id p)
  /\ (forall cms, In cms (ETL.current_month_spending db today) ->
                  ETL.cms_category_id cms <> category_id p)
  /\ (forall r, In r (Reports.get_budget_performance db today) ->
                exists c b, c <> p /\ budgeted db c b
                            /\ reports_row_for db today c b r)
  /\ (forall r, In r (ETL.extract_budget_performance db today) ->
                exists c b, c <> p /\ budgeted db c b
                            /\ etl_row_for db today c b r)
  /\ (forall c t, In t (category_debits db today c) ->
                  t_category_id t = category_id c)
  /\ (forall c t, In c (categories db) -> parent_category_id c <> None ->
                  t_category_id t = category_id p ->
                  ~ In t (category_debits db today c))
  /\ ((forall c, In c (categories db) ->
                 category_name c = category_name p ->
                 parent_category_id c = None) ->
      ~ In (category_name p)
           (map Reports.row_category_name
                (Reports.get_budget_performance db today))
      /\ ~ In (category_name p)
              (map ETL.row_category_name
                   (ETL.extract_budget_performance db today))).
Proof.
  intros Hkey Hp Hnone.
  assert (Hother : forall c, In c (categories db) ->
                             parent_category_id c <> None -> c <> p)
    by (intros c _ Hc ->; contradiction).
  assert (Hfiled : forall c t, In t (category_debits db today c) ->
                               t_category_id t = category_id c).
  { intros c t Ht. apply filter_In in Ht. destruct Ht as [_ Ht].
    unfold spending_on in Ht. rewrite !andb_true_iff in Ht.
    destruct Ht as [[Ht _] _]. apply Z.eqb_eq in Ht. now symmetry. }
  split; [|split; [|split; [|split; [|split; [|split]]]]].
  - intros cms Hcms E.
    destruct (reports_spending_sound db today Hkey cms Hcms)
      as (c & Hc & Hpar & Hid & _).
    apply (Hother c Hc Hpar).
    apply (category_of_id db c p Hkey Hc Hp). congruence.
  - intros cms Hcms E.
    destruct (etl_spending_sound db today Hkey cms Hcms)
      as (c & Hc & Hpar & Hid & _).
    apply (Hother c Hc Hpar).
    apply (category_of_id db c p Hkey Hc Hp). congruence.
  - intros r Hr.
    destruct (reports_row_sound db today Hkey r Hr) as (c & b & Hcb & Hrow).
    exists c, b. split; [|tauto].
    destruct Hcb as (Hc & Hpar & _). now apply Hother.
  - intros r Hr.
    destruct (etl_row_sound db today Hkey r Hr) as (c & b & Hcb & _ & Hrow).
    exists c, b. split; [|tauto].
    destruct Hcb as (Hc & Hpar & _). now apply Hother.
  - exact Hfiled.
  - intros c t Hc Hpar Ht Hin. apply Hfiled in Hin.
    apply (Hother c Hc Hpar).
    apply (category_of_id db c p Hkey Hc Hp). congruence.
  - intros Hname. split; rewrite in_map_iff; intros (r & Hn & Hr).
    + destruct (reports_row_sound db today Hkey r Hr)
        as (c & b & (Hc & Hpar & _) & (Hrn & _)).
      apply Hpar, Hname; [exact Hc | congruence].
    + destruct (etl_row_sound db today Hkey r Hr)
        as (c & b & (Hc & Hpar & _) & _ & (Hrn & _)).
      apply Hpar, Hname; [exact Hc | congruence].
Qed.

Lemma budget_rows_only_for_subcategories_witness :
  ~ In "Food"%string
       (map Reports.row_category_name
            (Reports.get_budget_performance SampleBudget.db
                                            SampleBudget.today))
  /\ ~ In "Food"%string
          (map ETL.row_category_name
               (ETL.extract_budget_performance SampleBudget.db
                                               SampleBudget.today)).
Proof.
  apply (budget_rows_only_for_subcategories
           SampleBudget.db SampleBudget.today
           (SampleBudget.cat 2 "Food" None Expense)
           sample_budget_ids_unique).
  - simpl. tauto.
  - reflexivity.
  - intros c Hc Hn. simpl in Hc.
    repeat (destruct Hc as [<-|Hc]; [try reflexivity; discriminate Hn|]).
    destruct Hc.
Defined.

(** ** Ordering of the budget rows *)

Lemma strongly_sorted_impl {A : Type} (R R' : A -> A -> Prop) (l : list A) :
  (forall a b, R a b -> R' a b) ->
  StronglySorted R l -> StronglySorted R' l.
Proof.
  intros HR. induction 1 as [|x l Hl IH Hx]; constructor.
  - exact IH.
  - eapply Forall_impl; [|exact Hx]. intros b. apply HR.
Qed.

Lemma sorted_adjacent_ok {A : Type} (leb : A -> A -> bool) (l : list A) :
  StronglySorted (fun a b => leb a b = true) l -> adjacent_ok leb l = true.
Proof.
  induction 1 as [|x l Hl IH Hx]; [reflexivity|].
  destruct l as [|y l]; [reflexivity|].
  change (adjacent_ok leb (x :: y :: l))
    with (leb x y && adjacent_ok leb (y :: l)).
  rewrite IH, andb_true_r. now inversion Hx.
Qed.

Lemma by_actual_spend_desc_total r1 r2 :
  ETL.by_actual_spend_desc r1 r2 = true
  \/ ETL.by_actual_spend_desc r2 r1 = true.
Proof.
  unfold ETL.by_actual_spend_desc. rewrite !Qle_bool_iff.
  destruct (Qlt_le_dec (ETL.row_actual_spend r1) (ETL.row_actual_spend r2));
    [right|left]; lra.
Qed.

Lemma by_actual_spend_desc_trans r1 r2 r3 :
  ETL.by_actual_spend_desc r1 r2 = true ->
  ETL.by_actual_spend_desc r2 r3 = true ->
  ETL.by_actual_spend_desc r1 r3 = true.
Proof. unfold ETL.by_actual_spend_desc. rewrite !Qle_bool_iff. lra. Qed.

(** C8, as amended: the rows of the ETL's evaluator are sorted by actual
    spend, descending, and the rows of the report's evaluator by
    [pct_used], descending; each evaluator has its one ordering, fixed in
    its query, and takes no parameter that selects another. *)
Theorem budget_order_fixed (db : database) (today : date) :
  StronglySorted
    (fun r1 r2 => ETL.row_actual_spend r2 <= ETL.row_actual_spend r1)
    (ETL.extract_budget_performance db today)
  /\ StronglySorted
       (fun r1 r2 => Reports.pct_used r2 <= Reports.pct_used r1)
       (Reports.get_budget_performance db today).
Proof.
  split.
  - apply strongly_sorted_impl
      with (R := fun r1 r2 => ETL.by_actual_spend_desc r1 r2 = true).
    + intros a b. apply Qle_bool_iff.
    + apply order_by_sorted.
      * apply by_actual_spend_desc_total.
      * apply by_actual_spend_desc_trans.
  - apply strongly_sorted_impl
      with (R := fun r1 r2 => Reports.by_pct_used_desc r1 r2 = true).
    + intros a b. apply Qle_bool_iff.
    + apply get_budget_performance_sorted.
Qed.

(** The claim that either ordering can be selected fails: on the sample
    data the report's rows are not in descending order of actual spend, and
    the ETL's rows are not in descending order of [pct_used]. *)
Lemma budget_order_not_selectable :
  ~ StronglySorted
      (fun r1 r2 => Qle_bool (Reports.row_actual_spend r2)
                             (Reports.row_actual_spend r1) = true)
      (Reports.get_budget_performance SampleBudget.db SampleBudget.today)
  /\ ~ StronglySorted
         (fun r1 r2 => ETL.pct_desc (ETL.pct_used r1) (ETL.pct_used r2)
                       = true)
         (ETL.extract_budget_performance SampleBudget.db SampleBudget.today).
Proof.
  split; intros H; apply sorted_adjacent_ok in H;
    vm_compute in H; discriminate H.
Qed.

(** Without income the ETL's savings rate is an infinity or [NaN]. *)
Lemma add_savings_zero_income (i e : Q) :
  i == 0 ->
  exists rate, snd (ETL.add_savings (Some i) (Some e)) = Some rate
               /\ is_finite rate = false.
Proof.
  intros Hi. unfold ETL.add_savings. cbn [snd fdiv].
  apply Qeq_bool_iff in Hi. rewrite Hi.
  eexists. split; [reflexivity|].
  unfold inf_of_sign.
  destruct (Qeq_bool (i - e) 0); [reflexivity|].
  destruct (Qlt_bool 0 (i - e)); reflexivity.
Qed.

(** C1 (a defect of [extract_monthly_summary]): on the sample data June
    has no income, 50 of debits and a refund of 20 credited to an expense
    category.  The report's summary of June counts 50 of expenses and gives
    a savings rate of 0; the ETL's summary counts the refund as an expense,
    70, and its savings rate is [-inf]. *)
Theorem etl_monthly_summary_unguarded :
  (exists row,
     In row (ETL.extract_monthly_summary SampleSummary.db)
     /\ ETL.pv_month row = (2025%Z, 6%Z)
     /\ oQeq (ETL.pv_income row) (Some 0)
     /\ oQeq (ETL.pv_expense row) (Some 70)
     /\ ETL.pv_savings_rate row = Some NInf)
  /\ oQeq (Reports.income
             (Reports.get_monthly_summary SampleSummary.db
                                          SampleSummary.today)) (Some 0)
  /\ oQeq (Reports.expenses
             (Reports.get_monthly_summary SampleSummary.db
                                          SampleSummary.today)) (Some 50)
  /\ oQeq (Reports.savings_rate
             (Reports.get_monthly_summary SampleSummary.db
                                          SampleSummary.today)) (Some 0).
Proof.
  split; [|repeat split].
  assert (E : existsb
                (fun row =>
                   month_eqb (ETL.pv_month row) (2025%Z, 6%Z)
                   && match ETL.pv_income row, ETL.pv_expense row,
                            ETL.pv_savings_rate row with
                      | Some i, Some e, Some NInf =>
                          Qeq_bool i 0 && Qeq_bool e 70
                      | _, _, _ => false
                      end)
                (ETL.extract_monthly_summary SampleSummary.db) = true)
    by (vm_compute; reflexivity).
  apply existsb_exists in E. destruct E as (row & Hin & Hrow).
  apply andb_true_iff in Hrow. destruct Hrow as [Hm Hrow].
  exists row. split; [exact Hin|].
  destruct (ETL.pv_month row) as [y m].
  unfold month_eqb in Hm. simpl in Hm.
  apply andb_true_iff in Hm. destruct Hm as [Hy Hm'].
  apply Z.eqb_eq in Hy. apply Z.eqb_eq in Hm'. subst.
  destruct (ETL.pv_income row) as [i|]; [|discriminate].
  destruct (ETL.pv_expense row) as [e|]; [|discriminate].
  destruct (ETL.pv_savings_rate row) as [[q| | |]|]; try discriminate.
  apply andb_true_iff in Hrow. destruct Hrow as [Hi He].
  apply Qeq_bool_iff in Hi. apply Qeq_bool_iff in He.
  repeat split; assumption.
Qed.

Example recommendation_scenario :
  oQeq (Reports.savings_rate
          (Reports.get_monthly_summary SampleSummary.scenario_db
                                       SampleSummary.today)) (Some 16)
  /\ Reports.generate_monthly_report SampleSummary.scenario_db
                                     SampleSummary.today
     = Ok [Reports.rec_savings].
Proof. split; reflexivity. Qed.

Example recommendation_sample :
  Reports.generate_monthly_report SampleBudget.db SampleBudget.today
  = Ok [Reports.rec_review; Reports.rec_focus "Groceries"].
Proof. reflexivity. Qed.

(** ** Export *)

Section ExportIsolation.

Variable frame : Type.
Variables xl_transactions xl_budget xl_monthly
          xl_category xl_merchant xl_goals : result frame.
Variables csv_transactions csv_budget csv_monthly : result frame.
Variable save : list (string * frame) -> bool.

Lemma write_sheets_spec (st : ETL.export_state frame) :
  let steps := sheet_steps xl_transactions xl_budget xl_monthly
                           xl_category xl_merchant xl_goals in
  let st' := ETL.write_sheets frame xl_transactions xl_budget xl_monthly
                              xl_category xl_merchant xl_goals st in
  ETL.sheets st' = ETL.sheets st ++ produced steps
  /\ ETL.printed st' = ETL.printed st ++ reported steps
  /\ ETL.files st' = ETL.files st.
Proof.
  unfold ETL.write_sheets, sheet_steps, produced, reported, ETL.try_sheet,
    ETL.print.
  destruct xl_transactions, xl_budget, xl_monthly, xl_category,
    xl_merchant, xl_goals; cbn -[ETL.sheet_warning];
    rewrite <- ?app_assoc, ?app_nil_r; repeat split; reflexivity.
Qed.

End ExportIsolation.





(** ** Roll-up of the category spending *)

Lemma Qsum_cons (x : Q) (l : list Q) : Qsum (x :: l) = x + Qsum l.
Proof. reflexivity. Qed.

Section Sums.
Context {A : Type}.

Lemma Qsum_filter (p : A -> bool) (g : A -> Q) (l : list A) :
  Qsum (map g (filter p l)) == Qsum (map (fun x => if p x then g x else 0) l).
Proof.
  induction l as [|x l IH]; [reflexivity|].
  cbn [filter map]. rewrite Qsum_cons, <- IH.
  destruct (p x); [rewrite map_cons, Qsum_cons|]; ring.
Qed.

Lemma Qsum_ext_in (g h : A -> Q) (l : list A) :
  (forall x, In x l -> g x == h x) -> Qsum (map g l) == Qsum (map h l).
Proof.
  induction l as [|x l IH]; intros H; [reflexivity|].
  rewrite !map_cons, !Qsum_cons.
  rewrite (H x (or_introl eq_refl)), IH; [reflexivity|].
  intros y Hy. apply H. now right.
Qed.

Lemma Qsum_zero (g : A -> Q) (l : list A) :
  (forall x, In x l -> g x == 0) -> Qsum (map g l) == 0.
Proof.
  induction l as [|x l IH]; intros H; [reflexivity|].
  rewrite map_cons, Qsum_cons, (H x (or_introl eq_refl)), IH; [ring|].
  intros y Hy. apply H. now right.
Qed.

Lemma Qsum_plus (g h : A -> Q) (l : list A) :
  Qsum (map (fun x => g x + h x) l) == Qsum (map g l) + Qsum (map h l).
Proof.
  induction l as [|x l IH]; [reflexivity|].
  rewrite !map_cons, !Qsum_cons, IH. ring.
Qed.

Lemma filter_perm (p : A -> bool) (l l' : list A) :
  Permutation l l' -> Permutation (filter p l) (filter p l').
Proof.
  induction 1 as [|x l l' _ IH|x y l|l1 l2 l3 _ IH1 _ IH2]; simpl.
  - constructor.
  - destruct (p x); [now constructor | exact IH].
  - destruct (p x), (p y); try reflexivity. apply perm_swap.
  - etransitivity; eassumption.
Qed.

End Sums.

Section GroupSums.
Context {A K : Type}.

Variable eqb : K -> K -> bool.
Hypothesis eqb_eq : forall a b, eqb a b = true <-> a = b.

(** Among distinct keys, [k0] is met once. *)
Lemma Qsum_single (ks : list K) (k0 : K) (w : K -> Q) :
  NoDup ks -> In k0 ks ->
  Qsum (map (fun k => if eqb k0 k then w k else 0) ks) == w k0.
Proof.
  induction ks as [|k ks IH]; intros Hnd Hin; [destruct Hin|].
  inversion Hnd as [|? ? Hk Hks]; subst.
  rewrite map_cons, Qsum_cons.
  destruct Hin as [->|Hin].
  - assert (E : eqb k0 k0 = true) by now apply eqb_eq.
    rewrite E.
    assert (Hz : Qsum (map (fun k => if eqb k0 k then w k else 0) ks) == 0).
    { apply Qsum_zero. intros x Hx.
      destruct (eqb k0 x) eqn:Ex; [|reflexivity].
      apply eqb_eq in Ex. subst. contradiction. }
    rewrite Hz. ring.
  - destruct (eqb k0 k) eqn:E.
    + apply eqb_eq in E. subst. contradiction.
    + rewrite IH by assumption. ring.
Qed.

(** Summing group by group is summing row by row. *)
Lemma Qsum_by_group (key : A -> K) (f : A -> Q) (w : K -> bool)
      (ks : list K) (l : list A) :
  NoDup ks -> incl (map key l) ks ->
  Qsum (map (fun k =>
               if w k
               then Qsum (map f (filter (fun a => eqb (key a) k) l))
               else 0) ks)
  == Qsum (map (fun a => if w (key a) then f a else 0) l).
Proof.
  intros Hnd. induction l as [|a l IH]; intros Hincl.
  - apply Qsum_zero. intros k _. destruct (w k); reflexivity.
  - assert (Ha : In (key a) ks) by (apply Hincl; now left).
    assert (Hl : incl (map key l) ks)
      by (intros k Hk; apply Hincl; now right).
    rewrite map_cons, Qsum_cons, <- (IH Hl).
    rewrite <- (Qsum_single ks (key a)
                  (fun k => if w k then f a else 0) Hnd Ha).
    rewrite <- Qsum_plus. apply Qsum_ext_in. intros k _.
    cbn [filter].
    destruct (eqb (key a) k), (w k);
      rewrite ?map_cons, ?Qsum_cons; ring.
Qed.

Lemma group_by_total (key : A -> K) (f : A -> Q) (w : K -> bool)
      (l : list A) :
  Qsum (map (fun g => Qsum (map f (snd g)))
            (filter (fun g => w (fst g)) (group_by eqb key l)))
  == Qsum (map f (filter (fun a => w (key a)) l)).
Proof.
  rewrite Qsum_filter. unfold group_by. rewrite map_map. cbn [fst snd].
  rewrite Qsum_filter.
  apply (Qsum_by_group key f w).
  - now apply distinct_nodup.
  - intros k Hk. now apply (in_distinct eqb eqb_eq).
Qed.

End GroupSums.

Lemma filter_map_comm {A B : Type} (f : A -> B) (p : B -> bool) (l : list A) :
  filter p (map f l) = map f (filter (fun a => p (f a)) l).
Proof.
  induction l as [|a l IH]; simpl; [reflexivity|].
  destruct (p (f a)); simpl; now rewrite IH.
Qed.

Lemma left_join_fst {A B : Type} (on : A -> B -> bool)
      (la : list A) (lb : list B) :
  (forall a, In a la -> (List.length (filter (on a) lb) <= 1)%nat) ->
  map fst (left_join on la lb) = la.
Proof.
  induction la as [|a la IH]; intros H; [reflexivity|].
  unfold left_join. cbn [flat_map]. fold (left_join on la lb).
  rewrite map_app, IH by (intros x Hx; apply H; now right).
  specialize (H a (or_introl eq_refl)).
  destruct (filter (on a) lb) as [|b [|b' bs]]; simpl in H |- *;
    [reflexivity | reflexivity | lia].
Qed.

Lemma at_most_one_by_id (cats : list category) (v : Z) :
  NoDup (map category_id cats) ->
  (List.length (filter (fun p => (v =? category_id p)%Z) cats) <= 1)%nat.
Proof.
  induction cats as [|x l IH]; intros Hnd; simpl; [lia|].
  inversion Hnd as [|? ? Hx Hl]; subst.
  destruct (v =? category_id x)%Z eqn:E.
  - apply Z.eqb_eq in E. subst.
    rewrite filter_none; [simpl; lia|].
    intros y Hy. apply Z.eqb_neq. intros E. apply Hx.
    rewrite E. now apply in_map.
  - now apply IH.
Qed.

Lemma at_most_one_parent (cats : list category)
      (tc : transaction * category) :
  NoDup (map category_id cats) ->
  (List.length (filter (ETL.parent_on tc) cats) <= 1)%nat.
Proof.
  intros Hnd. unfold ETL.parent_on.
  destruct (parent_category_id (snd tc)) as [pid|].
  - now apply at_most_one_by_id.
  - rewrite filter_none; [simpl; lia | reflexivity].
Qed.

Lemma month_eqb_eq (a b : Z * Z) : month_eqb a b = true <-> a = b.
Proof.
  destruct a as [y m], b as [y' m']. unfold month_eqb. simpl.
  rewrite andb_true_iff, !Z.eqb_eq. split.
  - intros [-> ->]. reflexivity.
  - intros H. inversion H. auto.
Qed.

Lemma spend_key_eqb_eq (a b : (Z * Z) * string * option string) :
  ETL.spend_key_eqb a b = true <-> a = b.
Proof.
  destruct a as [[m n] p], b as [[m' n'] p']. unfold ETL.spend_key_eqb.
  simpl. rewrite !andb_true_iff, month_eqb_eq, String.eqb_eq,
    opt_string_eqb_eq. split.
  - intros [[-> ->] ->]. reflexivity.
  - intros H. inversion H. auto.
Qed.

Section Rollup.

Variable db : database.
Variable today : date.

Hypothesis category_id_unique : NoDup (map category_id (categories db)).

(** Among the categories that have a parent, the name tells the type. *)
Hypothesis name_tells_type :
  forall c c', In c (categories db) -> In c' (categories db) ->
               parent_category_id c <> None ->
               parent_category_id c' <> None ->
               category_name c = category_name c' ->
               category_type c = category_type c'.

Let joined : list (transaction * category) :=
  inner_join (fun t c => (t_category_id t =? category_id c)%Z)
             (transactions db) (categories db).

(** Whether a joined transaction counts in the roll-up. *)
Let counted (tc : transaction * category) : bool :=
  (txn_type_eqb (transaction_type (fst tc)) Debit
   && is_some (parent_category_id (snd tc)))
  && (month_eqb (date_trunc_month (transaction_date (fst tc)))
                (date_trunc_month today)
      && expense_subcategory db (category_name (snd tc))).

Lemma rollup_by_rows :
  category_rollup db today
  == Qsum (map (fun tc => amount (fst tc)) (filter counted joined)).
Proof.
  unfold category_rollup, ETL.extract_category_spending.
  rewrite (Qsum_perm _ _
             (Permutation_map _
                (filter_perm _ _ _ (order_by_perm _ _)))).
  rewrite filter_map_comm, map_map. cbn [ETL.total_spend].
  etransitivity.
  { apply (group_by_total ETL.spend_key_eqb spend_key_eqb_eq ETL.spend_key
             (fun r => amount (fst (fst r)))
             (fun k => month_eqb (fst (fst k)) (date_trunc_month today)
                       && expense_subcategory db (snd (fst k)))). }
  unfold ETL.category_spending_rows. rewrite filter_filter_and.
  fold joined.
  rewrite <- (map_map fst (fun tc => amount (fst tc))).
  change (fun a : transaction * category * option category =>
            txn_type_eqb (transaction_type (fst (fst a))) Debit
            && is_some (parent_category_id (snd (fst a)))
            && (month_eqb (fst (fst (ETL.spend_key a)))
                          (date_trunc_month today)
                && expense_subcategory db (snd (fst (ETL.spend_key a)))))
    with (fun a : transaction * category * option category =>
            counted (fst a)).
  rewrite <- filter_map_comm.
  rewrite left_join_fst; [reflexivity|].
  intros tc _. now apply at_most_one_parent.
Qed.

Lemma expense_subcategory_type (c : category) :
  In c (categories db) -> parent_category_id c <> None ->
  expense_subcategory db (category_name c)
  = cat_type_eqb (category_type c) Expense.
Proof.
  intros Hc Hp. unfold expense_subcategory.
  destruct (cat_type_eqb (category_type c) Expense) eqn:E.
  - apply existsb_exists. exists c. split; [exact Hc|].
    rewrite E, String.eqb_refl.
    destruct (parent_category_id c); [reflexivity|congruence].
  - destruct (existsb _ (categories db)) eqn:Ex; [|reflexivity].
    apply existsb_exists in Ex. destruct Ex as (c' & Hc' & H).
    rewrite !andb_true_iff in H. destruct H as [[Hp' Hn] Ht].
    apply String.eqb_eq in Hn.
    assert (Hty : category_type c' = category_type c).
    { apply name_tells_type; try assumption.
      destruct (parent_category_id c'); [discriminate|discriminate]. }
    rewrite Hty in Ht. congruence.
Qed.

Lemma rollup_is_subcategory_expenses :
  category_rollup db today == subcategory_expenses db today.
Proof.
  rewrite rollup_by_rows. unfold subcategory_expenses,
    Reports.current_month_rows. fold joined.
  rewrite filter_filter_and, !Qsum_filter.
  apply Qsum_ext_in. intros [t c] Htc.
  apply in_inner_join in Htc. destruct Htc as (_ & Hc & _).
  unfold counted, Reports.expense_term, same_month. cbn [fst snd].
  destruct (parent_category_id c) as [pid|] eqn:Ep.
  - rewrite (expense_subcategory_type c Hc) by congruence.
    cbn [is_some].
    destruct (txn_type_eqb (transaction_type t) Debit),
      (month_eqb (date_trunc_month (transaction_date t))
                 (date_trunc_month today)),
      (cat_type_eqb (category_type c) Expense); reflexivity.
  - cbn [is_some]. rewrite !andb_false_r. reflexivity.
Qed.

End Rollup.

Lemma monthly_expenses_total (db : database) (today : date) :
  coalesce (Reports.expenses (Reports.get_monthly_summary db today)) 0
  == Qsum (map Reports.expense_term (Reports.current_month_rows db today)).
Proof.
  destruct (Reports.current_month_rows db today) as [|tc rows] eqn:E.
  - destruct (summary_of_empty_month db today E) as (_ & He & _).
    rewrite He. reflexivity.
  - destruct (summary_of_month db today) as (i & e & _ & _ & He & Hsum & _).
    { rewrite E. discriminate. }
    rewrite He, E in *. exact Hsum.
Qed.

(** C6, as amended: with [category_id] a key of [categories] and the
    names of the categories that have a parent telling their type, the sum
    of the per-category debit totals of the month over the expense
    categories equals the month's expense total taken over the
    transactions filed under a category with a parent; it equals the
    monthly summary's expense total (0 for a month without transactions)
    when no expense debit of the month is filed directly under a top-level
    category.  Transactions filed under a top-level category are not in the
    category spending. *)
Theorem category_rollup_consistency (db : database) (today : date) :
  NoDup (map category_id (categories db)) ->
  (forall c c', In c (categories db) -> In c' (categories db) ->
                parent_category_id c <> None ->
                parent_category_id c' <> None ->
                category_name c = category_name c' ->
                category_type c = category_type c') ->
  category_rollup db today == subcategory_expenses db today
  /\ ((forall t c,
         In t (transactions db) -> In c (categories db) ->
         t_category_id t = category_id c ->
         same_month (transaction_date t) today = true ->
         category_type c = Expense -> transaction_type t = Debit ->
         parent_category_id c <> None) ->
      category_rollup db today
      == coalesce (Reports.expenses (Reports.get_monthly_summary db today)) 0).
Proof.
  intros Hkey Hname.
  pose proof (rollup_is_subcategory_expenses db today Hkey Hname) as Hsub.
  split; [exact Hsub|].
  intros Hfiled. rewrite Hsub, monthly_expenses_total.
  unfold subcategory_expenses. rewrite Qsum_filter.
  apply Qsum_ext_in. intros [t c] Htc.
  unfold Reports.current_month_rows in Htc. apply filter_In in Htc.
  destruct Htc as [Htc Hmonth]. apply in_inner_join in Htc.
  destruct Htc as (Ht & Hc & Hid). apply Z.eqb_eq in Hid.
  cbn [fst snd] in *.
  destruct (parent_category_id c) as [pid|] eqn:Ep; [reflexivity|].
  cbn [is_some]. unfold Reports.expense_term. cbn [fst snd].
  destruct (category_type c) eqn:Ety; [reflexivity|].
  destruct (transaction_type t) eqn:Etx; [reflexivity|].
  exfalso. apply (Hfiled t c Ht Hc Hid Hmonth Ety Etx). exact Ep.
Qed.

Lemma category_rollup_consistency_witness :
  category_rollup SampleSummary.scenario_db SampleSummary.today
  == coalesce (Reports.expenses
                 (Reports.get_monthly_summary SampleSummary.scenario_db
                                              SampleSummary.today)) 0.
Proof.
  apply (category_rollup_consistency
           SampleSummary.scenario_db SampleSummary.today).
  - simpl. repeat constructor; simpl; intuition discriminate.
  - intros c c' Hc Hc' Hp Hp' _. simpl in Hc, Hc'.
    repeat (destruct Hc as [<-|Hc]; [try (exfalso; now apply Hp)|]);
      try destruct Hc;
      repeat (destruct Hc' as [<-|Hc']; [try (exfalso; now apply Hp')|]);
      try destruct Hc'; reflexivity.
  - intros t c Ht Hc Hid _ Hty Htx. simpl in Ht, Hc.
    repeat (destruct Ht as [<-|Ht]; [try discriminate Htx|]);
      try destruct Ht;
      repeat (destruct Hc as [<-|Hc];
              [try discriminate Hty; try discriminate Hid|]);
      try destruct Hc; discriminate.
Defined.

(** The claim that the roll-up always equals the expense total fails: on
    the sample data 40 were spent directly under the top-level category
    Food; the per-category totals add up to 1795, the monthly summary
    says 1835. *)
Lemma rollup_misses_top_level_spending :
  category_rollup SampleBudget.db SampleBudget.today == 1795
  /\ oQeq (Reports.expenses
             (Reports.get_monthly_summary SampleBudget.db
                                          SampleBudget.today)) (Some 1835)
  /\ ~ category_rollup SampleBudget.db SampleBudget.today
       == coalesce (Reports.expenses
                      (Reports.get_monthly_summary SampleBudget.db
                                                   SampleBudget.today)) 0.
Proof.
  split; [reflexivity|]. split; [reflexivity|].
  intros H. vm_compute in H. discriminate H.
Qed.

(** * Further properties of the queries *)

(** ** The report's monthly summary *)

Lemma half_cent : (1 # 2) / pow10 2 == 1 # 200.
Proof. reflexivity. Qed.

(** X1: The monthly summary of the report: the savings rate is never null; in
    a month without transactions income, expenses and savings are null and
    the rate is 0; otherwise they are the totals of the month, the rate is 0
    when the income is not positive, and within 0.005 of
    [(income - expenses) / income * 100] when it is. *)
Theorem report_summary_guarded (db : database) (today : date) :
  let s := Reports.get_monthly_summary db today in
  let rows := Reports.current_month_rows db today in
  exists rate,
    Reports.savings_rate s = Some rate
    /\ (rows = [] ->
        Reports.income s = None /\ Reports.expenses s = None
        /\ Reports.savings s = None /\ rate = 0)
    /\ (rows <> [] ->
        exists i e,
          Reports.income s = Some i
          /\ i == Qsum (map Reports.income_term rows)
          /\ Reports.expenses s = Some e
          /\ e == Qsum (map Reports.expense_term rows)
          /\ Reports.savings s = Some (i - e)
          /\ (i <= 0 -> rate = 0)
          /\ (0 < i -> Qabs (rate - (i - e) / i * 100) <= 1 # 200)).
Proof.
  cbv zeta.
  destruct (savings_rate_defined db today) as (rate & Hrate).
  exists rate. split; [exact Hrate|]. split.
  - intros Hrows.
    destruct (summary_of_empty_month db today Hrows) as (Hi & He & Hs & Hr).
    repeat split; try assumption. congruence.
  - intros Hrows.
    destruct (summary_of_month db today Hrows)
      as (i & e & Hi & Hi' & He & He' & Hs & Hr).
    exists i, e. repeat split; try assumption.
    + intros Hle. rewrite Hr in Hrate.
      apply Qlt_bool_false_iff in Hle. rewrite Hle in Hrate. congruence.
    + intros Hlt. rewrite Hr in Hrate.
      apply Qlt_bool_iff in Hlt. rewrite Hlt in Hrate.
      inversion Hrate; subst. rewrite <- half_cent.
      apply round_half_away_near.
Qed.

(** ** Alerts and the rows they come from *)

Lemma round_half_away_int (d : nat) (x : Q) :
  exists n, round_half_away d x = inject_Z n / pow10 d
            /\ Qabs (inject_Z n - x * pow10 d) <= 1 # 2.
Proof.
  unfold round_half_away.
  destruct (Qle_bool 0 (x * pow10 d)).
  - eexists. split; [reflexivity|]. apply floor_half_near.
  - eexists. split; [reflexivity|]. rewrite inject_Z_opp.
    setoid_replace (- inject_Z (Qfloor (- (x * pow10 d) + (1 # 2)))
                    - x * pow10 d)
      with (- (inject_Z (Qfloor (- (x * pow10 d) + (1 # 2)))
               - - (x * pow10 d))) by ring.
    rewrite Qabs_opp. apply floor_half_near.
Qed.

(** A rounded value above a whole number comes from a value above it. *)
Lemma round_half_away_above (d : nat) (x : Q) (k : Z) :
  inject_Z k < round_half_away d x -> inject_Z k < x.
Proof.
  destruct (round_half_away_int d x) as (n & -> & Hn).
  intros Hk. pose proof (pow10_pos d) as Hp.
  assert (Hpz : (0 < 10 ^ Z.of_nat d)%Z) by (apply Z.pow_pos_nonneg; lia).
  assert (Hnk : (k * 10 ^ Z.of_nat d < n)%Z).
  { apply (Qmult_lt_r _ _ (pow10 d) Hp) in Hk.
    assert (E : inject_Z n / pow10 d * pow10 d == inject_Z n)
      by (field; intros E; rewrite E in Hp; lra).
    rewrite E in Hk. unfold pow10 in Hk.
    rewrite <- inject_Z_mult in Hk. now rewrite <- Zlt_Qlt in Hk. }
  assert (Hn1 : inject_Z (k * 10 ^ Z.of_nat d) + 1 <= inject_Z n).
  { change 1 with (inject_Z 1). rewrite <- inject_Z_plus.
    rewrite <- Zle_Qle. lia. }
  rewrite inject_Z_mult in Hn1. fold (pow10 d) in Hn1.
  apply Qabs_Qle_condition in Hn. destruct Hn as [_ Hn].
  assert (Hx : inject_Z k * pow10 d < x * pow10 d) by lra.
  apply Qmult_lt_r in Hx; assumption.
Qed.

Section AlertRows.
Import Reports.

Lemma in_budget_rows (db : database) (today : date) (r : budget_row) :
  In r (get_budget_performance db today) ->
  exists cms b, r = budget_row_of (cms, Some b).
Proof.
  intros H. apply in_reports_budget_performance in H.
  destruct H as (cms & b & _ & _ & _ & _ & ->). eauto.
Qed.

(** X2: An alert for an exceeded budget is raised only when the month's spend
    is above a positive budget: for every row of the budget frame with
    [pct_used > 100] the budget is positive, the actual spend is greater
    and the variance is negative. *)
Theorem exceeded_alert_means_overspent
        (db : database) (today : date) (r : budget_row) :
  In r (get_budget_performance db today) ->
  is_over_budget r = true ->
  0 < row_budget r /\ row_budget r < row_actual_spend r /\ variance r < 0.
Proof.
  intros Hr Hover. apply in_budget_rows in Hr.
  destruct Hr as (cms & b & ->). apply is_over_budget_iff in Hover.
  unfold budget_row_of in *.
  cbn [fst snd option_map coalesce pct_used row_budget row_actual_spend
       variance] in *.
  destruct (Qlt_bool 0 (budget_amount b)) eqn:Eb; [|lra].
  apply Qlt_bool_iff in Eb.
  change 100 with (inject_Z 100) in Hover.
  apply round_half_away_above in Hover.
  change (inject_Z 100) with 100 in Hover.
  assert (Hlt : budget_amount b < actual_spend cms).
  { assert (Hne : ~ budget_amount b == 0) by lra.
    assert (E : actual_spend cms
                == actual_spend cms / budget_amount b * budget_amount b)
      by (field; exact Hne).
    assert (H1 : 1 < actual_spend cms / budget_amount b) by lra.
    apply (Qmult_lt_r _ _ (budget_amount b) Eb) in H1.
    rewrite <- E in H1. lra. }
  repeat split; lra.
Qed.

Lemma exceeded_alert_means_overspent_witness :
  exists r,
    In r (get_budget_performance SampleBudget.db SampleBudget.today)
    /\ row_category_name r = "Groceries"%string
    /\ row_budget r < row_actual_spend r.
Proof.
  assert (E : existsb
                (fun r => String.eqb (row_category_name r) "Groceries"
                          && is_over_budget r)
                (get_budget_performance SampleBudget.db SampleBudget.today)
              = true) by (vm_compute; reflexivity).
  apply existsb_exists in E. destruct E as (r & Hin & Hr).
  apply andb_true_iff in Hr. destruct Hr as [Hn Ho].
  exists r. split; [exact Hin|]. split; [now apply String.eqb_eq|].
  apply (exceeded_alert_means_overspent SampleBudget.db SampleBudget.today
           r Hin Ho).
Defined.

(** X3: A category whose budget is not positive never gets an alert from the
    report, whatever was spent: its row has [pct_used = 0]. *)
Theorem no_alert_without_positive_budget
        (db : database) (today : date) (r : budget_row) :
  In r (get_budget_performance db today) ->
  row_budget r <= 0 ->
  pct_used r = 0 /\ alerts_of [r] = [].
Proof.
  intros Hr Hb. apply in_budget_rows in Hr.
  destruct Hr as (cms & b & ->).
  assert (Hp : pct_used (budget_row_of (cms, Some b)) = 0).
  { unfold budget_row_of in *.
    cbn [fst snd option_map coalesce pct_used row_budget] in *.
    apply Qlt_bool_false_iff in Hb. now rewrite Hb. }
  split; [exact Hp|].
  rewrite alerts_of_row. unfold is_over_budget, is_near_budget.
  rewrite Hp. reflexivity.
Qed.

Lemma no_alert_without_positive_budget_witness :
  exists r,
    In r (get_budget_performance SampleBudget.db SampleBudget.today)
    /\ row_category_name r = "Restaurants"%string
    /\ 0 < row_actual_spend r
    /\ alerts_of [r] = [].
Proof.
  assert (E : existsb
                (fun r => String.eqb (row_category_name r) "Restaurants"
                          && Qle_bool (row_budget r) 0
                          && Qlt_bool 0 (row_actual_spend r))
                (get_budget_performance SampleBudget.db SampleBudget.today)
              = true) by (vm_compute; reflexivity).
  apply existsb_exists in E. destruct E as (r & Hin & Hr).
  rewrite !andb_true_iff in Hr. destruct Hr as [[Hn Hb] Ha].
  exists r. split; [exact Hin|]. split; [now apply String.eqb_eq|].
  split; [now apply Qlt_bool_iff|].
  apply (no_alert_without_positive_budget SampleBudget.db SampleBudget.today
           r Hin). now apply Qle_bool_iff.
Defined.

End AlertRows.

Section AlertOrder.
Import Reports.

(** In a frame sorted by [pct_used], descending, nothing after a row that
    is not over budget is over budget. *)
Lemma none_over_after (x : budget_row) (df : list budget_row) :
  Forall (fun r => by_pct_used_desc x r = true) df ->
  is_over_budget x = false ->
  filter is_over_budget df = [].
Proof.
  intros Hx Hover. apply filter_none. intros r Hr.
  rewrite Forall_forall in Hx. specialize (Hx r Hr).
  apply Qle_bool_iff in Hx. apply Qlt_bool_false_iff in Hover.
  apply Qlt_bool_false_iff. lra.
Qed.

Lemma alerts_in_row_order (df : list budget_row) :
  StronglySorted (fun r1 r2 => by_pct_used_desc r1 r2 = true) df ->
  alerts_of df = flat_map (fun r => alerts_of [r]) df.
Proof.
  induction 1 as [|x df Hs IH Hx]; [reflexivity|].
  cbn [flat_map]. rewrite <- IH, alerts_of_row, !alerts_of_closed.
  cbn [filter]. pose proof (bands_disjoint x) as D.
  destruct (is_over_budget x) eqn:Eo.
  - rewrite andb_true_l in D. rewrite D. reflexivity.
  - rewrite (none_over_after x df Hx Eo).
    destruct (is_near_budget x); reflexivity.
Qed.

(** X4: The alerts of the report come in the order of the rows of the budget
    frame, that is by descending [pct_used]: every budget_exceeded alert
    stands before every budget_warning; the report prints the first five.
    With five or more categories over budget it prints no warning. *)
Theorem report_alerts_follow_rows (db : database) (today : date) :
  let df := get_budget_performance db today in
  get_alerts db today = flat_map (fun r => alerts_of [r]) df
  /\ get_alerts db today
     = map exceeded_alert (filter is_over_budget df)
       ++ map warning_alert (filter is_near_budget df)
  /\ ((5 <= List.length (filter is_over_budget df))%nat ->
      shown_alerts (get_alerts db today)
      = map exceeded_alert (firstn 5 (filter is_over_budget df))).
Proof.
  cbv zeta. unfold get_alerts. split; [|split].
  - apply alerts_in_row_order, get_budget_performance_sorted.
  - apply alerts_of_closed.
  - intros H5. unfold shown_alerts. rewrite alerts_of_closed.
    rewrite firstn_app, length_map.
    replace (5 - List.length
                   (filter is_over_budget (get_budget_performance db today)))%nat
      with 0%nat by lia.
    rewrite firstn_O, app_nil_r. apply firstn_map.
Qed.

(** X5: The status of the savings rate is green exactly when the report does
    not recommend raising the savings rate, and red exactly when the rate
    is below 10. *)
Theorem savings_rate_status_matches
        (rate : Q) (budget_df : list budget_row) (alerts : list alert) :
  (savings_rate_status rate = "🟢"%string <->
   ~ In rec_savings (recommendations rate budget_df alerts))
  /\ (savings_rate_status rate = "🔴"%string <-> rate < 10).
Proof.
  pose proof (rules_fire rate budget_df alerts) as (Hs & _).
  cbv zeta in Hs. rewrite Hs. unfold savings_rate_status.
  destruct (Qle_bool 20 rate) eqn:E20;
    [apply Qle_bool_iff in E20
    |apply Qle_bool_false_iff in E20;
     destruct (Qle_bool 10 rate) eqn:E10;
     [apply Qle_bool_iff in E10 | apply Qle_bool_false_iff in E10]];
    (split; split; intros H);
    first [ reflexivity | discriminate H | lra
          | exfalso; apply H; lra | intros H'; lra ].
Qed.

End AlertOrder.

(** ** Top expenses *)

Lemma sorted_app_cross {A : Type} (R : A -> A -> Prop) (l1 l2 : list A) :
  StronglySorted R (l1 ++ l2) ->
  forall a b, In a l1 -> In b l2 -> R a b.
Proof.
  induction l1 as [|x l1 IH]; intros Hs a b Ha Hb; [destruct Ha|].
  simpl in Hs. inversion Hs as [|? ? Hs' Hx]; subst.
  destruct Ha as [->|Ha].
  - rewrite Forall_forall in Hx. apply Hx, in_or_app. now right.
  - now apply IH.
Qed.

Lemma sorted_app_left {A : Type} (R : A -> A -> Prop) (l1 l2 : list A) :
  StronglySorted R (l1 ++ l2) -> StronglySorted R l1.
Proof.
  induction l1 as [|x l1 IH]; intros Hs; [constructor|].
  simpl in Hs. inversion Hs as [|? ? Hs' Hx]; subst.
  constructor; [now apply IH|].
  rewrite Forall_forall in *. intros y Hy. apply Hx, in_or_app. now left.
Qed.

Lemma by_amount_desc_total r1 r2 :
  Reports.by_amount_desc r1 r2 = true \/ Reports.by_amount_desc r2 r1 = true.
Proof.
  unfold Reports.by_amount_desc. rewrite !Qle_bool_iff.
  destruct (Qlt_le_dec (Reports.te_amount r1) (Reports.te_amount r2));
    [right|left]; lra.
Qed.

Lemma by_amount_desc_trans r1 r2 r3 :
  Reports.by_amount_desc r1 r2 = true ->
  Reports.by_amount_desc r2 r3 = true ->
  Reports.by_amount_desc r1 r3 = true.
Proof. unfold Reports.by_amount_desc. rewrite !Qle_bool_iff. lra. Qed.

(** X6: [get_top_expenses] raises on a negative limit.  Otherwise it returns
    the [limit] largest debit transactions of the current month (all of
    them when there are fewer), largest first: the rows are sorted by
    amount, descending, and no debit of the month that is left out is
    larger than a row that is returned. *)
Theorem top_expenses_are_largest (db : database) (today : date) (limit : Z) :
  ((limit < 0)%Z ->
   Reports.get_top_expenses db today limit = Raise "DatabaseError")
  /\ ((0 <= limit)%Z ->
      exists rows rest,
        Reports.get_top_expenses db today limit = Ok rows
        /\ Permutation (rows ++ rest)
                       (map Reports.expense_row_of
                            (Reports.month_debits db today))
        /\ List.length rows
           = Nat.min (Z.to_nat limit)
                     (List.length (Reports.month_debits db today))
        /\ StronglySorted
             (fun r1 r2 => Reports.te_amount r2 <= Reports.te_amount r1) rows
        /\ (forall r r', In r rows -> In r' rest ->
                         Reports.te_amount r' <= Reports.te_amount r)).
Proof.
  unfold Reports.get_top_expenses. split; intros Hl.
  - apply Z.ltb_lt in Hl. now rewrite Hl.
  - apply Z.ltb_ge in Hl. rewrite Hl.
    set (all := order_by Reports.by_amount_desc
                  (map Reports.expense_row_of (Reports.month_debits db today))).
    assert (Hsorted : StronglySorted
              (fun r1 r2 => Reports.te_amount r2 <= Reports.te_amount r1) all).
    { apply strongly_sorted_impl
        with (R := fun r1 r2 => Reports.by_amount_desc r1 r2 = true).
      - intros a b. apply Qle_bool_iff.
      - apply order_by_sorted.
        + apply by_amount_desc_total.
        + apply by_amount_desc_trans. }
    exists (firstn (Z.to_nat limit) all), (skipn (Z.to_nat limit) all).
    rewrite <- (firstn_skipn (Z.to_nat limit) all) in Hsorted.
    split; [reflexivity|]. split.
    + rewrite firstn_skipn. apply order_by_perm.
    + split.
      * rewrite length_firstn. unfold all.
        rewrite (Permutation_length (order_by_perm _ _)), length_map.
        reflexivity.
      * split.
        -- now apply sorted_app_left in Hsorted.
        -- intros r r' Hr Hr'.
           apply (sorted_app_cross _ _ _ Hsorted r r' Hr Hr').
Qed.

(** ** Spending trends *)

Lemma month_leb_iff (a b : Z * Z) :
  month_leb a b = true <->
  (fst a < fst b \/ (fst a = fst b /\ snd a <= snd b))%Z.
Proof.
  unfold month_leb.
  rewrite orb_true_iff, andb_true_iff, Z.ltb_lt, Z.eqb_eq, Z.leb_le.
  tauto.
Qed.

Lemma month_leb_total (a b : Z * Z) :
  month_leb a b = true \/ month_leb b a = true.
Proof. rewrite !month_leb_iff. lia. Qed.

Lemma month_leb_trans (a b c : Z * Z) :
  month_leb a b = true -> month_leb b c = true -> month_leb a c = true.
Proof. rewrite !month_leb_iff. lia. Qed.

(** On calendar dates, being on or after the start of the trend window is
    being in one of the months from the sixth before the current one on. *)
Lemma in_trend_window (today d : date) :
  (1 <= month today <= 12)%Z -> (1 <= month d <= 12)%Z -> (1 <= day d)%Z ->
  date_geb d (Reports.trend_start today) = true <->
  (Reports.month_index (date_trunc_month today) - 6
   <= Reports.month_index (date_trunc_month d))%Z.
Proof.
  intros Ht Hm Hd.
  unfold Reports.trend_start, Reports.months_before, Reports.month_index,
    date_trunc_month, date_geb.
  cbn [fst snd year month day].
  set (i := (year today * 12 + month today - 1 - 6)%Z).
  pose proof (Z.div_mod i 12 ltac:(lia)) as Hdiv.
  pose proof (Z.mod_pos_bound i 12 ltac:(lia)) as Hmod.
  rewrite orb_true_iff, !andb_true_iff, orb_true_iff, andb_true_iff,
    !Z.ltb_lt, !Z.eqb_eq, Z.leb_le.
  lia.
Qed.

Section Trends.
Import Reports.

Variable db : database.
Variable today : date.

Lemma in_spending_trends (r : trend_row) :
  In r (get_spending_trends db today) <->
  In (tr_month r) (map trend_month (trend_rows db today))
  /\ r = {| tr_month := tr_month r;
            total_spent :=
              Qsum (map (fun tc => amount (fst tc))
                        (filter (fun tc => month_eqb (trend_month tc)
                                                     (tr_month r))
                                (trend_rows db today))) |}.
Proof.
  unfold get_spending_trends. rewrite in_order_by, in_map_iff. split.
  - intros ([k rows] & <- & Hg).
    apply (in_group_by month_eqb month_eqb_eq) in Hg.
    destruct Hg as [Hk ->]. split; [exact Hk | reflexivity].
  - intros [Hk Hr].
    exists (tr_month r,
            filter (fun tc => month_eqb (trend_month tc) (tr_month r))
                   (trend_rows db today)).
    split; [symmetry; exact Hr|].
    apply (in_group_by month_eqb month_eqb_eq). split; [exact Hk|reflexivity].
Qed.

Lemma spending_trends_months :
  Permutation (map tr_month (get_spending_trends db today))
              (distinct month_eqb (map trend_month (trend_rows db today))).
Proof.
  unfold get_spending_trends.
  rewrite (Permutation_map tr_month (order_by_perm _ _)).
  rewrite map_map. cbn [tr_month].
  rewrite <- (group_by_keys month_eqb trend_month (trend_rows db today)).
  reflexivity.
Qed.

End Trends.

(** X7: [get_spending_trends] returns one row for every month in which an
    expense was debited, from the sixth month before the current one on
    (seven months up to the current one, and any later month), in
    ascending order of the month, with the total of the expense debits of
    that month; a month without such a debit has no row. *)
Theorem spending_trends_window (db : database) (today : date) :
  (1 <= month today <= 12)%Z ->
  (forall t, In t (transactions db) ->
             (1 <= month (transaction_date t) <= 12)%Z
             /\ (1 <= day (transaction_date t))%Z) ->
  let rows := Reports.get_spending_trends db today in
  let window := Reports.trend_rows db today in
  StronglySorted
    (fun r1 r2 => month_leb (Reports.tr_month r1) (Reports.tr_month r2) = true)
    rows
  /\ NoDup (map Reports.tr_month rows)
  /\ (forall r, In r rows ->
        (Reports.month_index (date_trunc_month today) - 6
         <= Reports.month_index (Reports.tr_month r))%Z
        /\ Reports.total_spent r
           == Qsum (map (fun tc => amount (fst tc))
                        (filter (fun tc => month_eqb (trend_month tc)
                                                     (Reports.tr_month r))
                                window))
        /\ exists tc, In tc window /\ trend_month tc = Reports.tr_month r)
  /\ (forall t c,
        In t (transactions db) -> In c (categories db) ->
        t_category_id t = category_id c ->
        category_type c = Expense -> transaction_type t = Debit ->
        (Reports.month_index (date_trunc_month today) - 6
         <= Reports.month_index (date_trunc_month (transaction_date t)))%Z ->
        In (date_trunc_month (transaction_date t))
           (map Reports.tr_month rows)).
Proof.
  intros Htoday Hvalid rows window.
  split; [|split; [|split]].
  - apply order_by_sorted.
    + intros a b. apply month_leb_total.
    + intros a b c. apply month_leb_trans.
  - apply (Permutation_NoDup
             (Permutation_sym (spending_trends_months db today))).
    apply distinct_nodup. intros a b. apply month_eqb_eq.
  - intros r Hr. apply in_spending_trends in Hr. destruct Hr as [Hk Hr].
    apply in_map_iff in Hk. destruct Hk as ([t c] & Hkey & Htc).
    split; [|split].
    + rewrite <- Hkey. unfold Reports.trend_rows in Htc.
      apply filter_In in Htc. destruct Htc as [Hj Hf].
      apply in_inner_join in Hj. destruct Hj as (Ht & _ & _).
      apply andb_true_iff in Hf. destruct Hf as [_ Hgeb].
      destruct (Hvalid t Ht) as [Hm Hd].
      apply (in_trend_window today (transaction_date t) Htoday Hm Hd).
      exact Hgeb.
    + rewrite Hr at 1. reflexivity.
    + exists (t, c). split; assumption.
  - intros t c Ht Hc Hid Hty Htx Hwin.
    apply (Permutation_in _
             (Permutation_sym (spending_trends_months db today))).
    apply (in_distinct month_eqb month_eqb_eq).
    apply in_map_iff. exists (t, c). split; [reflexivity|].
    unfold Reports.trend_rows. apply filter_In. split.
    + apply in_inner_join. repeat split; try assumption.
      now apply Z.eqb_eq.
    + cbn [fst snd]. rewrite Hty, Htx. cbn [cat_type_eqb txn_type_eqb andb].
      destruct (Hvalid t Ht) as [Hm Hd].
      now apply (in_trend_window today (transaction_date t) Htoday Hm Hd).
Qed.

Lemma spending_trends_window_witness :
  map Reports.tr_month
      (Reports.get_spending_trends SampleSummary.db SampleSummary.today)
  = [(2025%Z, 5%Z); (2025%Z, 6%Z)]
  /\ NoDup (map Reports.tr_month
                (Reports.get_spending_trends SampleSummary.db
                                             SampleSummary.today)).
Proof.
  split; [reflexivity|].
  apply (spending_trends_window SampleSummary.db SampleSummary.today).
  - simpl. lia.
  - intros t Ht. simpl in Ht.
    repeat (destruct Ht as [<-|Ht]; [simpl; lia|]). destruct Ht.
Defined.

(** ** The ETL's monthly summary *)

Lemma month_type_eqb_eq (a b : (Z * Z) * cat_type) :
  ETL.month_type_eqb a b = true <-> a = b.
Proof.
  destruct a as [m ty], b as [m' ty']. unfold ETL.month_type_eqb.
  simpl. rewrite andb_true_iff, month_eqb_eq. split.
  - intros [-> H]. destruct ty, ty'; simpl in H; congruence.
  - intros H. inversion H; subst. split; [reflexivity|].
    destruct ty'; reflexivity.
Qed.


Lemma in_extract_monthly_summary (db : database) (row : ETL.pivot_row) :
  In row (ETL.extract_monthly_summary db) ->
  let df := ETL.monthly_totals_query db in
  In (ETL.pv_month row) (map ETL.tt_month df)
  /\ ETL.pv_income row = ETL.pivot_cell df Income (ETL.pv_month row)
  /\ ETL.pv_expense row = ETL.pivot_cell df Expense (ETL.pv_month row)
  /\ (ETL.pv_savings row, ETL.pv_savings_rate row)
     = ETL.add_savings (ETL.pv_income row) (ETL.pv_expense row).
Proof.
  unfold ETL.extract_monthly_summary. rewrite in_map_iff.
  intros (m & <- & Hm). cbv zeta.
  cbn [ETL.pv_month ETL.pv_income ETL.pv_expense ETL.pv_savings
       ETL.pv_savings_rate].
  unfold ETL.pivot_months in Hm. rewrite in_order_by in Hm.
  split; [exact (proj1 (in_distinct month_eqb month_eqb_eq _ _) Hm)|].
  split; [reflexivity|]. split; [reflexivity|].
  symmetry. apply surjective_pairing.
Qed.



Lemma pivot_cell_total (db : database) (ty : cat_type) (m : Z * Z) (v : Q) :
  ETL.pivot_cell (ETL.monthly_totals_query db) ty m = Some v ->
  v == month_type_total db m ty.
Proof.
  unfold ETL.pivot_cell.
  destruct (existsb _ (ETL.monthly_totals_query db)); [|discriminate].
  intros H. inversion H as [Hv]. clear H Hv.
  unfold ETL.monthly_totals_query.
  rewrite (Qsum_perm _ _
             (Permutation_map _
                (filter_perm _ _ _ (order_by_perm _ _)))).
  rewrite filter_map_comm, map_map.
  cbn [ETL.total_amount ETL.tt_month ETL.tt_category_type].
  apply (group_by_total ETL.month_type_eqb month_type_eqb_eq
           (fun tc => (date_trunc_month (transaction_date (fst tc)),
                       category_type (snd tc)))
           (fun tc => amount (fst tc))
           (fun k => month_eqb (fst k) m && cat_type_eqb (snd k) ty)).
Qed.

(** X9: Every cell of the ETL's monthly summary is the total of the month's
    amounts filed under categories of its type: credits and debits alike,
    so a refund credited to an expense category adds to the expenses. *)
Theorem etl_monthly_cells_are_totals (db : database) (row : ETL.pivot_row) :
  In row (ETL.extract_monthly_summary db) ->
  (forall i, ETL.pv_income row = Some i ->
             i == month_type_total db (ETL.pv_month row) Income)
  /\ (forall e, ETL.pv_expense row = Some e ->
                e == month_type_total db (ETL.pv_month row) Expense).
Proof.
  intros Hrow. apply in_extract_monthly_summary in Hrow. cbv zeta in Hrow.
  destruct Hrow as (_ & Hi & He & _).
  split; intros v Hv.
  - rewrite Hi in Hv. now apply pivot_cell_total.
  - rewrite He in Hv. now apply pivot_cell_total.
Qed.

Lemma etl_monthly_cells_are_totals_witness :
  exists row,
    In row (ETL.extract_monthly_summary SampleSummary.db)
    /\ ETL.pv_month row = (2025%Z, 6%Z)
    /\ oQeq (ETL.pv_expense row) (Some 70)
    /\ month_type_total SampleSummary.db (2025%Z, 6%Z) Expense == 70.
Proof.
  assert (E : existsb
                (fun row =>
                   month_eqb (ETL.pv_month row) (2025%Z, 6%Z)
                   && is_some (ETL.pv_expense row))
                (ETL.extract_monthly_summary SampleSummary.db) = true)
    by (vm_compute; reflexivity).
  apply existsb_exists in E. destruct E as (row & Hin & Hrow).
  apply andb_true_iff in Hrow. destruct Hrow as [Hm He].
  apply month_eqb_eq in Hm.
  exists row. split; [exact Hin|]. split; [exact Hm|].
  destruct (ETL.pv_expense row) as [e|] eqn:Ee; [|discriminate].
  pose proof (proj2 (etl_monthly_cells_are_totals SampleSummary.db row Hin)
                e Ee) as H.
  rewrite Hm in H. split; [|reflexivity].
  simpl. rewrite H. reflexivity.
Defined.

(** ** Cadence of the merchants *)







(** ** Order and sign in the goal tracker *)

Lemma pct_desc_total (a b : option Q) :
  ETL.pct_desc a b = true \/ ETL.pct_desc b a = true.
Proof.
  destruct a as [x|], b as [y|]; simpl; auto.
  rewrite !Qle_bool_iff. destruct (Qlt_le_dec x y); [right|left]; lra.
Qed.

Lemma pct_desc_trans (a b c : option Q) :
  ETL.pct_desc a b = true -> ETL.pct_desc b c = true ->
  ETL.pct_desc a c = true.
Proof.
  destruct a as [x|], b as [y|], c as [z|]; simpl; try congruence.
  rewrite !Qle_bool_iff. lra.
Qed.

Lemma by_priority_pct_desc_iff (r1 r2 : ETL.goal_row) :
  ETL.by_priority_pct_desc r1 r2 = true <->
  (ETL.gr_priority r1 < ETL.gr_priority r2)%Z
  \/ (ETL.gr_priority r1 = ETL.gr_priority r2
      /\ ETL.pct_desc (ETL.pct_complete r1) (ETL.pct_complete r2) = true).
Proof.
  unfold ETL.by_priority_pct_desc.
  rewrite orb_true_iff, andb_true_iff, Z.ltb_lt, Z.eqb_eq. tauto.
Qed.

(** X11: The goal tracker returns exactly the active goals, one row each, by
    priority ascending and, within a priority, by [pct_complete]
    descending with the null percentages first. *)
Theorem goals_by_priority (db : database) (today : date) :
  let rows := map fst (ETL.extract_financial_goals db today) in
  Permutation rows
              (map (ETL.goal_row_of today)
                   (filter g_is_active (financial_goals db)))
  /\ List.length rows
     = List.length (filter g_is_active (financial_goals db))
  /\ StronglySorted
       (fun r1 r2 =>
          (ETL.gr_priority r1 < ETL.gr_priority r2)%Z
          \/ (ETL.gr_priority r1 = ETL.gr_priority r2
              /\ ETL.pct_desc (ETL.pct_complete r1) (ETL.pct_complete r2)
                 = true))
       rows.
Proof.
  cbv zeta.
  assert (E : map fst (ETL.extract_financial_goals db today)
              = ETL.goals_query db today).
  { unfold ETL.extract_financial_goals.
    destruct (ETL.goals_query db today) as [|r df] eqn:Eq; [reflexivity|].
    replace (0 <? Z.of_nat (List.length (r :: df)))%Z with true
      by (symmetry; apply Z.ltb_lt; simpl; lia).
    rewrite map_map. cbn [fst]. apply map_id. }
  rewrite E. split; [|split].
  - apply by_priority_pct_desc_perm.
  - rewrite (Permutation_length (by_priority_pct_desc_perm db today)).
    apply length_map.
  - apply strongly_sorted_impl
      with (R := fun r1 r2 => ETL.by_priority_pct_desc r1 r2 = true).
    + intros a b. apply by_priority_pct_desc_iff.
    + apply order_by_sorted.
      * intros a b. rewrite !by_priority_pct_desc_iff.
        destruct (Z.lt_trichotomy (ETL.gr_priority a) (ETL.gr_priority b))
          as [Hlt|[Heq|Hgt]]; [left; now left | | right; now left].
        destruct (pct_desc_total (ETL.pct_complete a) (ETL.pct_complete b));
          [left|right]; right; split; congruence.
      * intros a b c. rewrite !by_priority_pct_desc_iff.
        intros [H1|[H1 P1]] [H2|[H2 P2]]; try lia.
        right. split; [lia|]. eapply pct_desc_trans; eassumption.
Qed.




(** ** The CSV fallback of the export *)

(** X13: When the workbook cannot be opened, or cannot be saved once the sheets
    are written, [export_to_excel] leaves no workbook and falls back to CSV
    files for transactions, budget performance and monthly summary only,
    each written unless its own step raises: category spending, merchant
    analysis and financial goals are not exported at all. *)
Theorem export_falls_back_to_csv
        (frame : Type)
        (xl_transactions xl_budget xl_monthly
         xl_category xl_merchant xl_goals : result frame)
        (csv_transactions csv_budget csv_monthly : result frame)
        (open_writer : bool) (save : list (string * frame) -> bool) :
  let steps := sheet_steps xl_transactions xl_budget xl_monthly
                           xl_category xl_merchant xl_goals in
  let out := ETL.export_to_excel frame
               xl_transactions xl_budget xl_monthly
               xl_category xl_merchant xl_goals
               csv_transactions csv_budget csv_monthly open_writer save in
  open_writer = false \/ save (produced steps) = false ->
  ETL.sheets out = []
  /\ ETL.files out
     = produced [ ("transactions.csv"%string, csv_transactions);
                  ("budget_performance.csv"%string, csv_budget);
                  ("monthly_summary.csv"%string, csv_monthly) ]
  /\ In [Lit "Falling back to CSV exports..."] (ETL.printed out).
Proof.
  intros steps out Hfail.
  pose proof (write_sheets_spec frame xl_transactions xl_budget xl_monthly
                xl_category xl_merchant xl_goals
                (ETL.print frame [Lit "📊 Exporting data to Excel..."]
                   (ETL.mkExportState frame [] [] []))) as Hw.
  cbv zeta in Hw. destruct Hw as (Hs & Hp & Hf).
  cbn [ETL.print ETL.sheets ETL.printed ETL.files app] in Hs, Hp, Hf.
  fold steps in Hs, Hp.
  assert (Hfb : forall st : ETL.export_state frame,
            ETL.files st = [] ->
            let out' := ETL.csv_fallback frame csv_transactions csv_budget
                                         csv_monthly st in
            ETL.sheets out' = []
            /\ ETL.files out'
               = produced [ ("transactions.csv"%string, csv_transactions);
                            ("budget_performance.csv"%string, csv_budget);
                            ("monthly_summary.csv"%string, csv_monthly) ]
            /\ In [Lit "Falling back to CSV exports..."] (ETL.printed out')).
  { intros st Hfiles. unfold ETL.csv_fallback, ETL.try_csv, ETL.print, produced.
    cbv zeta. rewrite Hfiles.
    destruct csv_transactions, csv_budget, csv_monthly;
      cbn -[ETL.csv_warning]; repeat split;
      try reflexivity;
      rewrite <- ?app_assoc; apply in_or_app; right; apply in_or_app;
      right; now left. }
  unfold out, ETL.export_to_excel.
  destruct open_writer.
  - destruct Hfail as [Hfail|Hfail]; [discriminate|].
    rewrite Hs, Hfail. apply Hfb. exact Hf.
  - apply Hfb. reflexivity.
Qed.

Lemma export_falls_back_to_csv_witness :
  let out := ETL.export_to_excel nat
               (Ok 1%nat) (Ok 2%nat) (Ok 3%nat) (Ok 4%nat) (Ok 5%nat)
               (Ok 6%nat)
               (Ok 1%nat) (Raise "disk full") (Ok 3%nat)
               false (fun _ => true) in
  ETL.sheets out = []
  /\ ETL.files out = [ ("transactions.csv"%string, 1%nat);
                       ("monthly_summary.csv"%string, 3%nat) ].
Proof.
  pose proof (export_falls_back_to_csv nat
                (Ok 1%nat) (Ok 2%nat) (Ok 3%nat) (Ok 4%nat) (Ok 5%nat)
                (Ok 6%nat)
                (Ok 1%nat) (Raise "disk full") (Ok 3%nat)
                false (fun _ => true) (or_introl eq_refl)) as (Hs & Hf & _).
  split; [exact Hs | exact Hf].
Defined.

(** ** The transaction extract *)

Lemma date_geb_iff (a b : date) :
  date_geb a b = true <->
  (year b < year a
   \/ (year a = year b
       /\ (month b < month a \/ (month a = month b /\ day b <= day a))))%Z.
Proof.
  unfold date_geb.
  rewrite !orb_true_iff, !andb_true_iff, orb_true_iff, andb_true_iff,
    !Z.ltb_lt, !Z.eqb_eq, Z.leb_le.
  tauto.
Qed.

Lemma at_most_one_by_key {A : Type} (f : A -> Z) (l : list A) (v : Z) :
  NoDup (map f l) ->
  (List.length (filter (fun x => (v =? f x)%Z) l) <= 1)%nat.
Proof.
  induction l as [|x l IH]; intros Hnd; simpl; [lia|].
  inversion Hnd as [|? ? Hx Hl]; subst.
  destruct (v =? f x)%Z eqn:E.
  - apply Z.eqb_eq in E. subst.
    rewrite filter_none; [simpl; lia|].
    intros y Hy. apply Z.eqb_neq. intros E. apply Hx.
    rewrite E. now apply in_map.
  - now apply IH.
Qed.

Lemma exactly_one_by_key {A : Type} (f : A -> Z) (l : list A) (v : Z) :
  NoDup (map f l) -> In v (map f l) ->
  List.length (filter (fun x => (v =? f x)%Z) l) = 1%nat.
Proof.
  intros Hnd Hin. pose proof (at_most_one_by_key f l v Hnd) as Hle.
  apply in_map_iff in Hin. destruct Hin as (x & Hx & Hin).
  assert (Hf : In x (filter (fun x => (v =? f x)%Z) l)).
  { apply filter_In. split; [exact Hin|]. apply Z.eqb_eq. now symmetry. }
  destruct (filter (fun x => (v =? f x)%Z) l); [destruct Hf|].
  simpl in *. lia.
Qed.

Lemma inner_join_fst {A B : Type} (on : A -> B -> bool)
      (la : list A) (lb : list B) :
  (forall a, In a la -> List.length (filter (on a) lb) = 1%nat) ->
  map fst (inner_join on la lb) = la.
Proof.
  induction la as [|a la IH]; intros H; [reflexivity|].
  unfold inner_join. cbn [flat_map]. fold (inner_join on la lb).
  rewrite map_app, IH by (intros x Hx; apply H; now right).
  specialize (H a (or_introl eq_refl)).
  destruct (filter (on a) lb) as [|b [|b' bs]]; simpl in H |- *;
    [lia | reflexivity | lia].
Qed.

Section TransactionExtract.
Import ETL.

Variable db : database.
Variable accounts : list account.

Hypothesis category_id_unique : NoDup (map category_id (categories db)).
Hypothesis account_id_unique : NoDup (map acc_account_id accounts).
Hypothesis references_exist :
  forall t, In t (transactions db) ->
            In (t_category_id t) (map category_id (categories db))
            /\ In (account_id t) (map acc_account_id accounts).

Lemma transaction_joins_keep_all :
  map (fun r => fst (fst (fst r))) (transaction_joins db accounts)
  = transactions db.
Proof.
  unfold transaction_joins.
  set (j1 := inner_join (fun t c => (t_category_id t =? category_id c)%Z)
                        (transactions db) (categories db)).
  assert (H1 : map fst j1 = transactions db).
  { apply inner_join_fst. intros t Ht.
    apply (exactly_one_by_key category_id); [assumption|].
    now apply references_exist. }
  set (j2 := left_join _ j1 (categories db)).
  assert (H2 : map fst j2 = j1).
  { apply left_join_fst. intros tc _.
    apply (at_most_one_parent (categories db) tc category_id_unique). }
  assert (H3 : map fst (inner_join
                          (fun r a => (account_id (fst (fst r))
                                       =? acc_account_id a)%Z)
                          j2 accounts) = j2).
  { apply inner_join_fst. intros r Hr.
    apply (exactly_one_by_key acc_account_id); [assumption|].
    assert (Ht : In (fst (fst r)) (transactions db)).
    { rewrite <- H1, <- H2, map_map. now apply (in_map (fun x => fst (fst x))). }
    now apply references_exist. }
  rewrite <- (map_map fst (fun x => fst (fst x))), H3.
  rewrite <- (map_map fst fst), H2. exact H1.
Qed.

End TransactionExtract.

(** X14: With [category_id] and [account_id] keys of their tables and every
    transaction pointing to a category and an account that exist,
    [extract_transactions] returns every transaction of the date range
    exactly once (all of them without bounds); a transaction is never
    doubled or lost by the joins. *)
Theorem extract_transactions_complete
        (db : database) (accounts : list ETL.account)
        (start_date end_date : option date) :
  NoDup (map category_id (categories db)) ->
  NoDup (map ETL.acc_account_id accounts) ->
  (forall t, In t (transactions db) ->
             In (t_category_id t) (map category_id (categories db))
             /\ In (account_id t) (map ETL.acc_account_id accounts)) ->
  Permutation
    (map ETL.tv_transaction_id
         (ETL.extract_transactions db accounts start_date end_date))
    (map transaction_id
         (filter (fun t => ETL.in_range start_date end_date
                                        (transaction_date t))
                 (transactions db))).
Proof.
  intros Hc Ha Href. unfold ETL.extract_transactions.
  rewrite (Permutation_map _ (order_by_perm _ _)).
  rewrite map_map. cbn [ETL.transaction_view_of ETL.tv_transaction_id].
  rewrite <- (transaction_joins_keep_all db accounts Hc Ha Href).
  rewrite filter_map_comm, map_map. reflexivity.
Qed.

Lemma extract_transactions_complete_witness :
  Permutation
    (map ETL.tv_transaction_id
         (ETL.extract_transactions SampleSummary.db
            [ETL.mkAccount 1 "Primary Checking" "checking" (542075 # 100)]
            (Some (mkDate 2025 6 1)) None))
    [3%Z; 4%Z].
Proof.
  apply (extract_transactions_complete SampleSummary.db
           [ETL.mkAccount 1 "Primary Checking" "checking" (542075 # 100)]
           (Some (mkDate 2025 6 1)) None).
  - simpl. repeat constructor; simpl; intuition discriminate.
  - simpl. repeat constructor; simpl; intuition.
  - intros t Ht. simpl in Ht.
    repeat (destruct Ht as [<-|Ht]; [simpl; intuition|]). destruct Ht.
Defined.

(** X15: The rows of [extract_transactions] are dated within the bounds that
    were given and come latest first; their weekday number is between 0
    and 6 and their weekday name is one of the seven padded names. *)
Theorem extract_transactions_in_range
        (db : database) (accounts : list ETL.account)
        (start_date end_date : option date) :
  let rows := ETL.extract_transactions db accounts start_date end_date in
  StronglySorted
    (fun r1 r2 => date_geb (ETL.tv_transaction_date r1)
                           (ETL.tv_transaction_date r2) = true) rows
  /\ (forall r, In r rows ->
        ETL.in_range start_date end_date (ETL.tv_transaction_date r) = true
        /\ (0 <= ETL.tv_day_of_week r <= 6)%Z
        /\ In (ETL.tv_day_name r) ETL.day_names).
Proof.
  cbv zeta. split.
  - apply order_by_sorted.
    + intros a b. unfold ETL.by_date_desc. rewrite !date_geb_iff. lia.
    + intros a b c. unfold ETL.by_date_desc. rewrite !date_geb_iff. lia.
  - intros r Hr. unfold ETL.extract_transactions in Hr.
    rewrite in_order_by, in_map_iff in Hr.
    destruct Hr as (x & <- & Hx). apply filter_In in Hx.
    destruct Hx as [_ Hrange].
    cbn [ETL.transaction_view_of ETL.tv_transaction_date
         ETL.tv_day_of_week ETL.tv_day_name].
    assert (Hdow : (0 <= day_of_week (transaction_date (fst (fst (fst x))))
                    <= 6)%Z).
    { unfold day_of_week.
      pose proof (Z.mod_pos_bound
                    (to_days (transaction_date (fst (fst (fst x)))) + 4) 7
                    ltac:(lia)). lia. }
    split; [exact Hrange|]. split; [exact Hdow|].
    apply nth_In. change (List.length ETL.day_names) with 7%nat. lia.
Qed.

(** ** The budget table of the report *)

(** X16: The budget table of the report holds the ten rows with the highest
    [pct_used] (all rows when there are at most ten): no row that is left
    out has a higher percentage than a row that is shown. *)
Theorem budget_table_shows_highest (db : database) (today : date) :
  let df := Reports.get_budget_performance db today in
  let shown := Reports.budget_table df in
  List.length shown = Nat.min 10 (List.length df)
  /\ (forall r r', In r shown -> In r' (skipn 10 df) ->
                   Reports.pct_used r' <= Reports.pct_used r)
  /\ shown ++ skipn 10 df = df.
Proof.
  cbv zeta. unfold Reports.budget_table. split; [apply length_firstn|].
  split; [|apply firstn_skipn].
  intros r r' Hr Hr'.
  pose proof (get_budget_performance_sorted db today) as Hs.
  rewrite <- (firstn_skipn 10 (Reports.get_budget_performance db today)) in Hs.
  apply Qle_bool_iff.
  apply (sorted_app_cross _ _ _ Hs r r' Hr Hr').
Qed.

(** ** Order of the category spending *)




